(** * The job/bookmark state manager of the job-listing app (JobContext)

    A shallow embedding of [JobProvider] (context/JobContext.js): the five
    React state cells, the AsyncStorage keys [jobBookmarks] and
    [jobBookmarks_backup], and the operations [loadBookmarks], [fetchJobs],
    [saveBookmarks], [isBookmarked], [toggleBookmark], [clearBookmarks] and
    [verifyAndRepairBookmarks].

    JavaScript values are a tree datatype, an object being the list of its
    own properties in insertion order.  Asynchronous code is run to
    completion in program order: an [await] is sequencing, a rejected
    promise is a thrown exception.  What the provider cannot control is
    kept explicit: which AsyncStorage calls reject ([faults]), what
    [fetch] resolves to (an argument of [fetchJobs]), what the user
    answers to a prompt (an argument of [clearBookmarks]), the clock, and
    the functions [JSON.parse] and [JSON.stringify], which are variables of
    the section. *)

From Stdlib Require Import ZArith List Bool Lia Ascii.
From stdpp Require Import base strings gmap list pretty.

Local Open Scope string_scope.
Local Open Scope list_scope.
Set Warnings "-register-all".

(** ** JavaScript values *)

(** Numbers are the integers: [typeof], truthiness and [===] only look at
    a number being one, being zero and being the same, and a parsed text
    holds no NaN. *)
Inductive value : Type :=
| VUndefined
| VNull
| VBool (b : bool)
| VNumber (n : Z)
| VString (s : string)
| VArray (items : list value)
| VObject (fields : list (string * value)).

(** [typeof v] *)
Definition typeof (v : value) : string :=
  match v with
  | VUndefined => "undefined"
  | VBool _ => "boolean"
  | VNumber _ => "number"
  | VString _ => "string"
  | VNull | VArray _ | VObject _ => "object"
  end.

(** [Array.isArray(v)] *)
Definition Array_isArray (v : value) : bool :=
  match v with VArray _ => true | _ => false end.

(** The truth value a condition, [!], [&&] or [||] gives to [v]:
    [undefined], [null], [false], [0] and the empty string are falsy. *)
Definition truthy (v : value) : bool :=
  match v with
  | VUndefined | VNull => false
  | VBool b => b
  | VNumber n => negb (n =? 0)%Z
  | VString s => negb (String.eqb s EmptyString)
  | VArray _ | VObject _ => true
  end.

(** [a || b] returns one of its operands. *)
Definition js_or (a b : value) : value := if truthy a then a else b.

(** A value without reference identity: [===] on two of them compares type
    and content.  On arrays and objects [===] is identity of the reference,
    which a tree does not carry. *)
Definition primitive (v : value) : bool :=
  match v with
  | VArray _ | VObject _ => false
  | _ => true
  end.

(** [a === b].  Two structured values are taken to be distinct references
    (every array or object the provider compares comes out of its own
    [JSON.parse] or literal); statements about [===] below are made for
    primitive operands. *)
Definition strict_eq (a b : value) : bool :=
  match a, b with
  | VUndefined, VUndefined => true
  | VNull, VNull => true
  | VBool x, VBool y => Bool.eqb x y
  | VNumber x, VNumber y => (x =? y)%Z
  | VString x, VString y => String.eqb x y
  | _, _ => false
  end.

(** Own property [k] of an object literal or parsed object: the first
    binding of [k], [undefined] when there is none. *)
Fixpoint field (k : string) (fields : list (string * value)) : value :=
  match fields with
  | [] => VUndefined
  | (k', v) :: rest => if String.eqb k' k then v else field k rest
  end.

(** Exceptions the provider can meet. *)
Inductive exn : Type :=
| TypeError
| SyntaxError
| StorageError
| NetworkError
| Error (message : string).

(** [v.k] for the property names the provider reads (id, title, ...,
    primary_details, Experience, Job_Type, Qualification, Salary, results,
    jobs, data): none of them is defined on a built-in prototype, so on a
    number, boolean, string or array the read gives [undefined]; on
    [undefined] and [null] it throws a TypeError. *)
Definition prop (v : value) (k : string) : exn + value :=
  match v with
  | VUndefined | VNull => inl TypeError
  | VObject fields => inr (field k fields)
  | _ => inr VUndefined
  end.

(** Expressions that may throw, outside any state. *)
Definition and_then {A B} (r : exn + A) (k : A -> exn + B) : exn + B :=
  match r with
  | inl e => inl e
  | inr a => k a
  end.
Notation "'let?' x := r 'in' k" := (and_then r (fun x => k))
  (at level 10, x name, r at level 100, k at level 200, only parsing).

(** [[...v]]: an array gives its items, a string its characters; nothing
    else the provider handles is iterable. *)
Definition spread (v : value) : exn + list value :=
  match v with
  | VArray items => inr items
  | VString s =>
      inr (map (fun c => VString (String c EmptyString)) (String.list_ascii_of_string s))
  | _ => inl TypeError
  end.

(** ** The provider's state and its environment *)

Inductive event : Type :=
| GetItem (key : string)
| SetItem (key : string) (text : string)
| RemoveItem (key : string)
| ConsoleLog (message : string)
| ConsoleError (message : string)
| AlertShown (title : string)
| HapticFired (kind : string).

Record app : Type := App {
  bookmarks : value;              (* useState([])   *)
  jobs : value;                   (* useState([])   *)
  loading : bool;                 (* useState(true) *)
  error : option string;          (* useState(null) *)
  currentPage : Z;                (* useState(1)    *)
  storage : gmap string string;   (* AsyncStorage   *)
  faults : list bool;             (* does the next AsyncStorage call reject? *)
  trace : list event;             (* storage calls, console lines, alerts    *)
  render_error : bool             (* a state updater threw while rendering   *)
}.

Definition set_bookmarks (v : value) (st : app) : app :=
  App v (jobs st) (loading st) (error st) (currentPage st) (storage st)
      (faults st) (trace st) (render_error st).
Definition set_jobs (v : value) (st : app) : app :=
  App (bookmarks st) v (loading st) (error st) (currentPage st) (storage st)
      (faults st) (trace st) (render_error st).
Definition set_loading (b : bool) (st : app) : app :=
  App (bookmarks st) (jobs st) b (error st) (currentPage st) (storage st)
      (faults st) (trace st) (render_error st).
Definition set_error (e : option string) (st : app) : app :=
  App (bookmarks st) (jobs st) (loading st) e (currentPage st) (storage st)
      (faults st) (trace st) (render_error st).
Definition set_currentPage (p : Z) (st : app) : app :=
  App (bookmarks st) (jobs st) (loading st) (error st) p (storage st)
      (faults st) (trace st) (render_error st).
Definition set_storage (m : gmap string string) (st : app) : app :=
  App (bookmarks st) (jobs st) (loading st) (error st) (currentPage st) m
      (faults st) (trace st) (render_error st).
Definition set_faults (fs : list bool) (st : app) : app :=
  App (bookmarks st) (jobs st) (loading st) (error st) (currentPage st)
      (storage st) fs (trace st) (render_error st).
Definition emit (e : event) (st : app) : app :=
  App (bookmarks st) (jobs st) (loading st) (error st) (currentPage st)
      (storage st) (faults st) (trace st ++ [e]) (render_error st).
Definition set_render_error (st : app) : app :=
  App (bookmarks st) (jobs st) (loading st) (error st) (currentPage st)
      (storage st) (faults st) (trace st) true.

(** The provider as first mounted over a given store. *)
Definition mounted (store : gmap string string) (fs : list bool) : app :=
  App (VArray []) (VArray []) true None 1%Z store fs [] false.

(** ** Computations: state, exceptions, and fuel for the retry *)

Inductive outcome (A : Type) : Type :=
| Returned (a : A)
| Thrown (e : exn)
| OutOfFuel.
Arguments Returned {A} a.
Arguments Thrown {A} e.
Arguments OutOfFuel {A}.

Definition action (A : Type) : Type := app -> outcome A * app.

Definition ret {A} (a : A) : action A := fun st => (Returned a, st).
Definition throw {A} (e : exn) : action A := fun st => (Thrown e, st).
Definition bind {A B} (m : action A) (k : A -> action B) : action B :=
  fun st =>
    match m st with
    | (Returned a, st') => k a st'
    | (Thrown e, st') => (Thrown e, st')
    | (OutOfFuel, st') => (OutOfFuel, st')
    end.
Definition modify (f : app -> app) : action unit :=
  fun st => (Returned tt, f st).
Definition lift {A} (r : exn + A) : action A :=
  match r with inl e => throw e | inr a => ret a end.

Declare Scope action_scope.
Delimit Scope action_scope with action.
Notation "x <- m ;; k" := (bind m (fun x => k))
  (at level 100, m at next level, k at level 200, right associativity,
   only parsing) : action_scope.
Notation "m ;; k" := (bind m (fun _ => k))
  (at level 100, k at level 200, right associativity, only parsing)
  : action_scope.
Local Open Scope action_scope.

(** [try { body } catch (e) { handler e }] *)
Definition try_catch {A} (body : action A) (handler : exn -> action A)
  : action A :=
  fun st =>
    match body st with
    | (Thrown e, st') => handler e st'
    | r => r
    end.

(** [try { body } finally { cleanup }] *)
Definition try_finally {A} (body : action A) (cleanup : action unit)
  : action A :=
  fun st =>
    match body st with
    | (OutOfFuel, st') => (OutOfFuel, st')
    | (r, st') =>
        match cleanup st' with
        | (Returned _, st'') => (r, st'')
        | (Thrown e, st'') => (Thrown e, st'')
        | (OutOfFuel, st'') => (OutOfFuel, st'')
        end
    end.

(** The React setters and the console. *)
Definition setBookmarks (v : value) : action unit := modify (set_bookmarks v).
Definition setJobs (v : value) : action unit := modify (set_jobs v).
Definition setLoading (b : bool) : action unit := modify (set_loading b).
Definition setError (e : option string) : action unit := modify (set_error e).
Definition setCurrentPage (p : Z) : action unit := modify (set_currentPage p).
Definition console_log (m : string) : action unit := modify (emit (ConsoleLog m)).
Definition console_error (m : string) : action unit :=
  modify (emit (ConsoleError m)).
Definition Alert_alert (title : string) : action unit :=
  modify (emit (AlertShown title)).

(** ** AsyncStorage

    Each call first consults the fault schedule; a rejected call leaves the
    store as it was. *)
Definition storage_call {A} (e : event) (run : app -> A * app) : action A :=
  fun st =>
    let st1 := set_faults (tl (faults st)) (emit e st) in
    if hd false (faults st) then (Thrown StorageError, st1)
    else let (a, st2) := run st1 in (Returned a, st2).

Definition AsyncStorage_getItem (key : string) : action (option string) :=
  storage_call (GetItem key) (fun st => (storage st !! key, st)).
Definition AsyncStorage_setItem (key text : string) : action unit :=
  storage_call (SetItem key text)
    (fun st => (tt, set_storage (<[key := text]> (storage st)) st)).
Definition AsyncStorage_removeItem (key : string) : action unit :=
  storage_call (RemoveItem key)
    (fun st => (tt, set_storage (delete key (storage st)) st)).

(** [if (s)] on what [getItem] resolved to: [null] and the empty string are
    falsy. *)
Definition has_text (s : option string) : bool :=
  match s with
  | Some t => negb (String.eqb t EmptyString)
  | None => false
  end.

Definition primary_key : string := "jobBookmarks".
Definition backup_key : string := "jobBookmarks_backup".

(** The bundle [{ timestamp, jobs }] that [saveBookmarks] serialises. *)
Definition bookmarksData (timestamp : string) (essentialJobData : list value)
  : value :=
  VObject [ ("timestamp", VString timestamp); ("jobs", VArray essentialJobData) ].

(** ** Reading the trace *)

Definition is_removal (e : event) : bool :=
  match e with RemoveItem k => String.eqb k primary_key | _ => false end.
Definition is_read (e : event) : bool :=
  match e with GetItem k => String.eqb k primary_key | _ => false end.
Definition is_repair_line (e : event) : bool :=
  match e with
  | ConsoleLog m => String.eqb m "Attempting to recover bookmarks data..."
  | _ => false
  end.
Definition count (p : event -> bool) (tr : list event) : nat :=
  length (List.filter p tr).

(** ** A concrete setting, for running the operations

    A serialiser for trees of plain data (no escaping inside strings;
    [undefined] members are left out, as [JSON.stringify] does), and a
    parser that knows the texts used below and rejects every other one. *)

Definition quoted (s : string) : string :=
  String (Ascii.ascii_of_nat 34)
    (String.append s (String (Ascii.ascii_of_nat 34) EmptyString)).

Fixpoint print_json (v : value) : string :=
  match v with
  | VUndefined | VNull => "null"
  | VBool b => if b then "true" else "false"
  | VNumber n => pretty n
  | VString s => quoted s
  | VArray items =>
      ("[" ++ String.concat "," (map print_json items) ++ "]")%string
  | VObject fields =>
      ("{" ++ String.concat ","
                ((fix members (fs : list (string * value)) : list string :=
                    match fs with
                    | [] => []
                    | (k, VUndefined) :: rest => members rest
                    | (k, x) :: rest =>
                        (quoted k ++ ":" ++ print_json x)%string :: members rest
                    end) fields)
           ++ "}")%string
  end.

Definition job1 : value :=
  VObject [ ("id", VNumber 1); ("title", VString "Driver") ].
Definition job5 : value :=
  VObject [ ("id", VNumber 5); ("experience", VNumber 3);
            ("primary_details",
             VObject [ ("Experience", VString "2-4 yrs") ]);
            ("tracking_token", VString "x9") ].
Definition stamp : string := "2024-01-01T00:00:00.000Z".
Definition saved_bundle : value := bookmarksData stamp [job1].
Definition saved_text : string := Eval vm_compute in print_json saved_bundle.
Definition page_text : string :=
  Eval vm_compute in print_json (VObject [ ("results", VArray [job1]) ]).

(** A job whose details are there but blank. *)
Definition job_blank : value :=
  VObject [ ("id", VNumber 7); ("experience", VNumber 3);
            ("salary", VString "15000");
            ("primary_details",
             VObject [ ("Experience", VString EmptyString);
                       ("Salary", VString EmptyString) ]) ].

Definition saved_text5 : string :=
  Eval vm_compute in
    print_json
      (bookmarksData stamp
         [ VObject
             [ ("id", VNumber 5);
               ("experience", VString "2-4 yrs");
               ("primary_details",
                VObject [ ("Experience", VString "2-4 yrs") ]) ] ]).

Definition read_json (s : string) : option value :=
  if String.eqb s "[]" then Some (VArray [])
  else if String.eqb s saved_text then Some saved_bundle
  else if String.eqb s page_text then Some (VObject [ ("results", VArray [job1]) ])
  else None.

(** Stores and provider states to run from. *)
Definition store_saved : gmap string string :=
  <[primary_key := saved_text]> ∅.
Definition store_corrupt : gmap string string :=
  <[primary_key := "{oops"]> (<[backup_key := saved_text]> ∅).
Definition store_backup_only : gmap string string :=
  <[backup_key := saved_text]> ∅.
Definition store_both : gmap string string :=
  <[primary_key := saved_text]> (<[backup_key := saved_text]> ∅).
Definition listing5 : app :=
  set_jobs (VArray [job5]) (mounted ∅ []).
Definition marked1 : app :=
  set_bookmarks (VArray [job1]) (mounted store_both []).

(** More jobs, texts and states, for the further properties. *)
Definition job_range : value :=
  VObject [ ("id", VNumber 9); ("experience", VNumber 2);
            ("salary_min", VNumber 10000); ("salary_max", VNumber 20000);
            ("job_location_slug", VString "hyderabad");
            ("primary_details",
             VObject [ ("Experience", VString "1-2 yrs") ]);
            ("contentV3",
             VObject [ ("V3",
                        VArray [ VObject [ ("field_key", VString "Shift timing");
                                           ("field_value", VString "Day") ] ]) ]) ].
Definition odd_page : value := VObject [ ("results", VNumber 5) ].
Definition odd_page_text : string := Eval vm_compute in print_json odd_page.
Definition read_json_odd (s : string) : option value :=
  if String.eqb s odd_page_text then Some odd_page else read_json s.
Definition bundle_loaded : app :=
  set_bookmarks saved_bundle (mounted store_saved []).
Definition idle5 : app := set_loading false listing5.

Section Provider.

(** [JSON.parse]: [None] when it throws a SyntaxError. *)
Variable JSON_parse : string -> option value.
(** [JSON.stringify] on a tree of plain data. *)
Variable JSON_stringify : value -> string.
(** [new Date().toISOString()] *)
Variable now : string.
(** [Platform.OS] *)
Variable Platform_OS : string.

Definition parse (s : string) : action value :=
  match JSON_parse s with
  | Some v => ret v
  | None => throw SyntaxError
  end.

(** *** loadBookmarks

    [loadBookmarks_body self] is the function body with [self] for the
    recursive call.  [return loadBookmarks(retryCount + 1)] hands the
    promise of the retry back without awaiting it: the inner [catch]
    covers the removal only, and the return skips [setError].  The retry
    runs here before the outer [finally]; in the source the two
    interleave, and both end with [setLoading(false)]. *)
Definition loadBookmarks_body (self : Z -> action unit) (retryCount : Z)
  : action unit :=
  try_finally
    (try_catch
       (setLoading true ;;
        storedBookmarks <- AsyncStorage_getItem primary_key ;;
        if has_text storedBookmarks
        then v <- parse (default EmptyString storedBookmarks) ;; setBookmarks v
        else ret tt)
       (fun err =>
          console_error "Error loading bookmarks:" ;;
          returned <-
            (if (retryCount =? 0)%Z
             then
               console_log "Attempting to recover bookmarks data..." ;;
               cleared <-
                 try_catch
                   (AsyncStorage_removeItem primary_key ;; ret true)
                   (fun clearError =>
                      console_error "Failed to clear corrupted bookmarks:" ;;
                      ret false) ;;
               if cleared : bool
               then self (retryCount + 1)%Z ;; ret true
               else ret false
             else ret false) ;;
          if returned : bool then ret tt
          else setError (Some "Failed to load saved jobs")))
    (setLoading false).

Fixpoint loadBookmarks_fuel (fuel : nat) : Z -> action unit :=
  match fuel with
  | O => fun _ st => (OutOfFuel, st)
  | S fuel' => loadBookmarks_body (loadBookmarks_fuel fuel')
  end.

(** Two levels are all the guard [retryCount === 0] lets through. *)
Definition loadBookmarks (retryCount : Z) : action unit :=
  loadBookmarks_fuel 2 retryCount.

(** *** fetchJobs *)

(** What [await fetch(url)] gives: a rejection, or a response with its
    [ok] flag and body text. *)
Inductive http_reply : Type :=
| FetchRejected
| Response (ok : bool) (body : string).

Definition fetch (reply : http_reply) : action (bool * string) :=
  match reply with
  | FetchRejected => throw NetworkError
  | Response ok body => ret (ok, body)
  end.

(** A functional [setJobs(prev => ...)].  React runs the updater when it
    renders; a throw there is outside the [try] of the caller. *)
Definition setJobs_with (updater : value -> exn + value) : action unit :=
  fun st =>
    match updater (jobs st) with
    | inr v => (Returned tt, set_jobs v st)
    | inl _ => (Returned tt, set_render_error st)
    end.

(** The [if]/[else if]/[else] that picks [jobsArray] out of the body. *)
Definition jobsArray_of (responseData : value) : exn + value :=
  if Array_isArray responseData then inr responseData
  else if truthy responseData && String.eqb (typeof responseData) "object"
  then
    let? results := prop responseData "results" in
    let? jobs := prop responseData "jobs" in
    let? data := prop responseData "data" in
    inr (js_or (js_or (js_or results jobs) data) (VArray []))
  else inr (VArray []).

Definition fetchJobs (reply : http_reply) (page : Z) : action unit :=
  try_finally
    (try_catch
       (setLoading true ;;
        setError None ;;
        response <- fetch reply ;;
        (if negb (fst response) then throw (Error "Failed to fetch jobs")
         else ret tt) ;;
        responseData <- parse (snd response) ;;
        jobsArray <- lift (jobsArray_of responseData) ;;
        (if (page =? 1)%Z then setJobs jobsArray
         else setJobs_with (fun prevJobs =>
                let? prev := spread prevJobs in
                let? more := spread jobsArray in
                inr (VArray (prev ++ more)))) ;;
        setCurrentPage page)
       (fun error =>
          console_error "Error fetching jobs:" ;;
          setError (Some "Failed to fetch jobs. Please try again later.")))
    (setLoading false).

Definition loadMoreJobs (reply : http_reply) : action unit :=
  fun st =>
    if negb (loading st) then fetchJobs reply (currentPage st + 1) st
    else (Returned tt, st).

(** *** saveBookmarks *)

(** [typeof job[top] === 'number' && job.primary_details
     && job.primary_details[detail]] as a condition. *)
Definition numeric_with_detail (job : value) (top detail : string)
  : exn + bool :=
  let? t := prop job top in
  if String.eqb (typeof t) "number" then
    let? pd := prop job "primary_details" in
    if truthy pd then
      let? d := prop pd detail in inr (truthy d)
    else inr false
  else inr false.

(** The callback of [updatedBookmarks.map]. *)
Definition essential (job : value) : exn + value :=
  let? processedExperience := prop job "experience" in
  let? processedJobType := prop job "job_type" in
  let? processedQualification := prop job "qualification" in
  let processedSalary := VNull in
  let? c := numeric_with_detail job "experience" "Experience" in
  let? processedExperience :=
    (if c : bool
     then let? pd := prop job "primary_details" in prop pd "Experience"
     else inr processedExperience) in
  let? c := numeric_with_detail job "job_type" "Job_Type" in
  let? processedJobType :=
    (if c : bool
     then let? pd := prop job "primary_details" in prop pd "Job_Type"
     else inr processedJobType) in
  let? c := numeric_with_detail job "qualification" "Qualification" in
  let? processedQualification :=
    (if c : bool
     then let? pd := prop job "primary_details" in prop pd "Qualification"
     else inr processedQualification) in
  let? pd := prop job "primary_details" in
  let? c := (if truthy pd
             then let? s := prop pd "Salary" in inr (truthy s)
             else inr false) in
  let? processedSalary :=
    (if c : bool then prop pd "Salary" else inr processedSalary) in
  let? id := prop job "id" in
  let? title := prop job "title" in
  let? company_name := prop job "company_name" in
  let? salary := prop job "salary" in
  let? salary_min := prop job "salary_min" in
  let? salary_max := prop job "salary_max" in
  let? locality := prop job "locality" in
  let? city_location := prop job "city_location" in
  let? primary_details := prop job "primary_details" in
  let? contentV3 := prop job "contentV3" in
  let? other_details := prop job "other_details" in
  let? whatsapp_no := prop job "whatsapp_no" in
  let? phone := prop job "phone" in
  let? job_tags := prop job "job_tags" in
  let? openings_count := prop job "openings_count" in
  let? tags := prop job "tags" in
  let? created_on := prop job "created_on" in
  let? updated_on := prop job "updated_on" in
  let? expire_on := prop job "expire_on" in
  let? views := prop job "views" in
  inr (VObject
    [ ("id", id);
      ("title", title);
      ("company_name", company_name);
      ("salary", js_or processedSalary salary);
      ("salary_min", salary_min);
      ("salary_max", salary_max);
      ("experience", processedExperience);
      ("locality", locality);
      ("city_location", city_location);
      ("job_type", processedJobType);
      ("qualification", processedQualification);
      ("primary_details", primary_details);
      ("contentV3", contentV3);
      ("other_details", other_details);
      ("whatsapp_no", whatsapp_no);
      ("phone", phone);
      ("job_tags", job_tags);
      ("openings_count", openings_count);
      ("tags", tags);
      ("created_on", created_on);
      ("updated_on", updated_on);
      ("expire_on", expire_on);
      ("views", views) ]).

(** [items.map(f)] for a callback that may throw. *)
Fixpoint map_throwing (f : value -> exn + value) (items : list value)
  : exn + list value :=
  match items with
  | [] => inr []
  | x :: rest =>
      let? y := f x in
      let? ys := map_throwing f rest in
      inr (y :: ys)
  end.

Definition saveBookmarks (updatedBookmarks : value) : action unit :=
  try_catch
    ((if negb (Array_isArray updatedBookmarks)
      then throw (Error "Invalid bookmark data format") else ret tt) ;;
     essentialJobData <-
       lift (match updatedBookmarks with
             | VArray items => map_throwing essential items
             | _ => inl TypeError
             end) ;;
     AsyncStorage_setItem primary_key
       (JSON_stringify (bookmarksData now essentialJobData)) ;;
     AsyncStorage_setItem backup_key
       (JSON_stringify (bookmarksData now essentialJobData)))
    (fun err =>
       console_error "Error saving bookmarks:" ;;
       setError (Some "Failed to save job") ;;
       Alert_alert "Storage Error").

(** *** isBookmarked, toggleBookmark *)

(** [items.some(job => job.id === jobId)], left to right, stopping at the
    first hit. *)
Fixpoint some_id_is (jobId : value) (items : list value) : exn + bool :=
  match items with
  | [] => inr false
  | job :: rest =>
      let? id := prop job "id" in
      if strict_eq id jobId then inr true else some_id_is jobId rest
  end.

(** [isBookmarked] reads the [bookmarks] of the render it was created in;
    [.some] exists on arrays only. *)
Definition isBookmarked (rendered : value) (jobId : value) : exn + bool :=
  match rendered with
  | VArray items => some_id_is jobId items
  | _ => inl TypeError
  end.

(** [items.filter(bookmark => bookmark.id !== job.id)] *)
Fixpoint filter_id_isnt (job : value) (items : list value)
  : exn + list value :=
  match items with
  | [] => inr []
  | bookmark :: rest =>
      let? bid := prop bookmark "id" in
      let? jid := prop job "id" in
      let? kept := filter_id_isnt job rest in
      inr (if negb (strict_eq bid jid) then bookmark :: kept else kept)
  end.

Definition triggerHaptic (type : string) : action unit :=
  if String.eqb Platform_OS "ios" then
    if String.eqb type "impact" then modify (emit (HapticFired "impact"))
    else if String.eqb type "notification"
         then modify (emit (HapticFired "notification"))
         else ret tt
  else ret tt.

(** The updater handed to [setBookmarks]: [rendered] is the [bookmarks]
    that [isBookmarked] closes over, [prevBookmarks] the cell's value. *)
Definition toggle_updater (rendered job prevBookmarks : value)
  : action value :=
  jid <- lift (prop job "id") ;;
  marked <- lift (isBookmarked rendered jid) ;;
  updatedBookmarks <-
    (if marked : bool
     then
       kept <- lift (match prevBookmarks with
                     | VArray items => filter_id_isnt job items
                     | _ => inl TypeError
                     end) ;;
       ret (VArray kept)
     else
       prev <- lift (spread prevBookmarks) ;;
       Alert_alert "Job Bookmarked" ;;
       ret (VArray (prev ++ [job]))) ;;
  saveBookmarks updatedBookmarks ;;
  ret updatedBookmarks.

Definition toggleBookmark_from (rendered job : value) : action unit :=
  triggerHaptic "impact" ;;
  fun st =>
    match toggle_updater rendered job (bookmarks st) st with
    | (Returned updatedBookmarks, st') =>
        (Returned tt, set_bookmarks updatedBookmarks st')
    | (Thrown _, st') => (Returned tt, set_render_error st')
    | (OutOfFuel, st') => (OutOfFuel, st')
    end.

(** [toggleBookmark] as the screens call it: from a render that shows the
    current cell. *)
Definition toggleBookmark (job : value) : action unit :=
  fun st => toggleBookmark_from (bookmarks st) job st.

(** *** clearBookmarks *)

Inductive answer : Type := PressCancel | PressClearAll.

Definition clearBookmarks (choice : answer) : action unit :=
  Alert_alert "Clear All Bookmarks" ;;
  match choice with
  | PressCancel => ret tt
  | PressClearAll =>
      try_catch
        (AsyncStorage_removeItem primary_key ;;
         setBookmarks (VArray []) ;;
         triggerHaptic "notification")
        (fun err =>
           console_error "Error clearing bookmarks:" ;;
           setError (Some "Failed to clear bookmarks"))
  end.

(** *** verifyAndRepairBookmarks *)

Definition verifyAndRepairBookmarks : action value :=
  try_catch
    (mainBookmarks <- AsyncStorage_getItem primary_key ;;
     backupBookmarks <- AsyncStorage_getItem backup_key ;;
     if negb (has_text mainBookmarks) && has_text backupBookmarks
     then
       AsyncStorage_setItem primary_key (default EmptyString backupBookmarks) ;;
       parse (default EmptyString backupBookmarks)
     else
       if has_text mainBookmarks then parse (default EmptyString mainBookmarks)
       else ret (VArray []))
    (fun err =>
       console_error "Error verifying bookmarks storage:" ;;
       ret (VArray [])).

(** ** The screens

    What JobCard, JobDetailsScreen, JobsScreen and BookmarksScreen compute
    from a job and from the provider's cells.  The JSX a component
    returns is kept as the branch it takes and the values it shows. *)

(** [String(v)] and the conversion inside a template literal. *)
Fixpoint to_string (v : value) : string :=
  match v with
  | VUndefined => "undefined"
  | VNull => "null"
  | VBool b => if b then "true" else "false"
  | VNumber n => pretty n
  | VString s => s
  | VArray items =>
      String.concat ","
        (map (fun x => match x with
                       | VUndefined | VNull => EmptyString
                       | _ => to_string x
                       end) items)
  | VObject _ => "[object Object]"
  end.

(** The first [replace] of [safeToString]: every brace and every double
    quote is dropped. *)
Definition brace_or_quote (c : Ascii.ascii) : bool :=
  Ascii.eqb c "{"%char || Ascii.eqb c "}"%char
  || Ascii.eqb c (Ascii.ascii_of_nat 34).

Fixpoint strip_braces_quotes (s : string) : string :=
  match s with
  | EmptyString => EmptyString
  | String c rest =>
      if brace_or_quote c then strip_braces_quotes rest
      else String c (strip_braces_quotes rest)
  end.

(** The second [replace]: every comma gets a space after it. *)
Fixpoint space_commas (s : string) : string :=
  match s with
  | EmptyString => EmptyString
  | String c rest =>
      if Ascii.eqb c ","%char
      then String ","%char (String " "%char (space_commas rest))
      else String c (space_commas rest)
  end.

(** [safeToString] of JobCard. *)
Definition safeToString (v : value) : string :=
  match v with
  | VNull | VUndefined => EmptyString
  | _ =>
      if String.eqb (typeof v) "object"
      then space_commas (strip_braces_quotes (JSON_stringify v))
      else to_string v
  end.

(** [getFieldTextValue(field, primaryDetailsField)] of JobCard and of
    JobDetailsScreen, [job] being the component's prop. *)
Definition getFieldTextValue (job field : value) (primaryDetailsField : string)
  : exn + value :=
  if String.eqb (typeof field) "number" then
    let? pd := prop job "primary_details" in
    if truthy pd then
      let? d := prop pd primaryDetailsField in
      if truthy d then prop pd primaryDetailsField else inr field
    else inr field
  else inr field.

(** [isSalaryEmpty(salary)] of JobCard. *)
Definition isSalaryEmpty (salary : value) : bool :=
  strict_eq salary (VString "V3:[]") || negb (truthy salary).

Definition rupee : string := "₹".

(** [getSalaryDisplay()] of JobCard. *)
Definition getSalaryDisplay (job : value) : exn + value :=
  let? pd := prop job "primary_details" in
  let? c := (if truthy pd
             then let? s := prop pd "Salary" in inr (truthy s)
             else inr false) in
  if c : bool then
    let? s := prop pd "Salary" in
    if strict_eq s (VString "-") then inr (VString "Not Mentioned")
    else inr s
  else
    let? fee_details := prop job "fee_details" in
    if isSalaryEmpty fee_details || strict_eq fee_details (VString "-")
    then inr (VString "Not Mentioned")
    else
      let? salary_min := prop job "salary_min" in
      let? salary_max := prop job "salary_max" in
      if truthy salary_min && truthy salary_max
      then inr (VString (rupee ++ to_string salary_min ++ " - "
                           ++ rupee ++ to_string salary_max)%string)
      else if truthy salary_min
      then inr (VString (rupee ++ to_string salary_min ++ "+")%string)
      else if truthy salary_max
      then inr (VString ("Up to " ++ rupee ++ to_string salary_max)%string)
      else inr (VString (safeToString fee_details)).

(** The salary row of JobCard: shown when
    [job.primary_details?.Salary || job.salary_min || job.salary_max
     || job.fee_details] is truthy, with [getSalaryDisplay()] as its
    text. *)
Definition salary_row (job : value) : exn + option value :=
  let? pd := prop job "primary_details" in
  let? s := (match pd with
             | VUndefined | VNull => inr VUndefined
             | _ => prop pd "Salary"
             end) in
  let? salary_min := prop job "salary_min" in
  let? salary_max := prop job "salary_max" in
  let? fee_details := prop job "fee_details" in
  if truthy (js_or (js_or (js_or s salary_min) salary_max) fee_details)
  then let? shown := getSalaryDisplay job in inr (Some shown)
  else inr None.

(** [formatSalaryRange()] of JobDetailsScreen. *)
Definition formatSalaryRange (job : value) : exn + value :=
  let? pd := prop job "primary_details" in
  let? c := (if truthy pd
             then let? s := prop pd "Salary" in inr (truthy s)
             else inr false) in
  if c : bool then
    let? s := prop pd "Salary" in
    if strict_eq s (VString "-") then inr (VString "Not Mentioned")
    else inr s
  else
    let? salary := prop job "salary" in
    let? salary_min := prop job "salary_min" in
    let? salary_max := prop job "salary_max" in
    if strict_eq salary (VString "v3:[]")
       || strict_eq salary_min (VString "v3:[]")
       || strict_eq salary_max (VString "v3:[]")
       || strict_eq salary (VString "-")
       || strict_eq salary_min (VString "-")
       || strict_eq salary_max (VString "-")
    then inr (VString "Not Mentioned")
    else if truthy salary_min && truthy salary_max
    then inr (VString (rupee ++ to_string salary_min ++ " - "
                         ++ rupee ++ to_string salary_max)%string)
    else if truthy salary_min
    then inr (VString (rupee ++ to_string salary_min ++ "+")%string)
    else if truthy salary_max
    then inr (VString ("Up to " ++ rupee ++ to_string salary_max)%string)
    else
      let? fee_details := prop job "fee_details" in
      if truthy fee_details && negb (strict_eq fee_details (VString "-"))
      then inr fee_details
      else inr (VString "Not Mentioned").

(** [s.includes(sub)] *)
Fixpoint includes (s sub : string) : bool :=
  String.prefix sub s
  || match s with
     | EmptyString => false
     | String _ rest => includes rest sub
     end.

(** [items.join(sep)] *)
Definition join (sep : string) (items : list value) : string :=
  String.concat sep
    (map (fun x => match x with
                   | VUndefined | VNull => EmptyString
                   | _ => to_string x
                   end) items).

(** The callback of [parts.some] in [formatJobLocation]. *)
Definition overlaps_slug (slug part : value) : bool :=
  match part with
  | VString p => includes p (to_string slug) || includes (to_string slug) p
  | _ => false
  end.

(** [formatJobLocation(job)] of JobCard. *)
Definition formatJobLocation (job : value) : exn + string :=
  let parts : list value := [] in
  let? slug := prop job "job_location_slug" in
  let parts :=
    if truthy slug then
      let shouldAdd := negb (existsb (overlaps_slug slug) parts) in
      if shouldAdd then parts ++ [slug] else parts
    else parts in
  inr (if (0 <? length parts)%nat then join ", " parts
       else "Location not specified").

(** [items.find(item => item.field_key === fieldKey)] *)
Fixpoint find_field_key (fieldKey : value) (items : list value)
  : exn + value :=
  match items with
  | [] => inr VUndefined
  | item :: rest =>
      let? k := prop item "field_key" in
      if strict_eq k fieldKey then inr item else find_field_key fieldKey rest
  end.

(** [getContentV3FieldValue(fieldKey)] of JobDetailsScreen. *)
Definition getContentV3FieldValue (job fieldKey : value) : exn + value :=
  let? contentV3 := prop job "contentV3" in
  if truthy contentV3 then
    let? V3 := prop contentV3 "V3" in
    match V3 with
    | VArray items =>
        let? found := find_field_key fieldKey items in
        if truthy found then prop found "field_value" else inr VNull
    | _ => inr VNull
    end
  else inr VNull.

(** [v.length]: defined on lists and strings (of which only being zero
    is looked at), [undefined] on the other values that have properties. *)
Definition length_of (v : value) : exn + value :=
  match v with
  | VUndefined | VNull => inl TypeError
  | VArray items => inr (VNumber (Z.of_nat (length items)))
  | VString s => inr (VNumber (Z.of_nat (String.length s)))
  | _ => inr VUndefined
  end.

(** Which of its returns a screen takes. *)
Inductive view : Type :=
| LoadingView
| ErrorView (message : string)
| EmptyView
| ListView (data : value).

(** [if (error)] on the error slot. *)
Definition error_shown (e : option string) : bool := has_text e.

(** BookmarksScreen: the spinner while [loading], the error view while
    an error is set, the empty view for a zero [length], the list
    otherwise. *)
Definition BookmarksScreen (st : app) : exn + view :=
  if loading st then inr LoadingView
  else if error_shown (error st)
  then inr (ErrorView (default EmptyString (error st)))
  else
    let? n := length_of (bookmarks st) in
    if strict_eq n (VNumber 0) then inr EmptyView
    else inr (ListView (bookmarks st)).

(** JobsScreen: spinner and error view only over an empty listing. *)
Definition JobsScreen (st : app) : exn + view :=
  let? spinning :=
    (if loading st
     then let? n := length_of (jobs st) in inr (strict_eq n (VNumber 0))
     else inr false) in
  if spinning : bool then inr LoadingView
  else
    let? failed :=
      (if error_shown (error st)
       then let? n := length_of (jobs st) in inr (strict_eq n (VNumber 0))
       else inr false) in
    if failed : bool
    then inr (ErrorView (default EmptyString (error st)))
    else inr (ListView (jobs st)).

(** The state JobsScreen keeps itself. *)
Record jobs_screen : Type := JobsScreenState {
  page : Z;                (* useState(1)     *)
  initialLoading : bool;   (* useState(true)  *)
  refreshing : bool;       (* useState(false) *)
  hasMore : bool;          (* useState(true)  *)
  isConnected : bool       (* useState(true)  *)
}.

Definition jobs_screen_mounted : jobs_screen :=
  JobsScreenState 1 true false true true.

(** [handleLoadMore], the list's [onEndReached]. *)
Definition handleLoadMore (reply : http_reply) (s : jobs_screen)
  : action unit :=
  fun st =>
    if negb (loading st) && hasMore s
    then fetchJobs reply (page s + 1) st
    else (Returned tt, st).

(** [handleRefresh], the pull to refresh. *)
Definition handleRefresh (reply : http_reply) (s : jobs_screen)
  : jobs_screen * action unit :=
  (JobsScreenState (page s) (initialLoading s) true true (isConnected s),
   fetchJobs reply 1).

(** What can happen to a mounted JobsScreen: the end of the list is
    reached, the list is pulled, "Try Again" is pressed, NetInfo reports. *)
Inductive jobs_screen_event : Type :=
| EndReached (reply : http_reply)
| Pulled (reply : http_reply)
| TryAgain (reply : http_reply)
| NetInfo (connected : bool).

Definition jobs_screen_step (ev : jobs_screen_event)
    (now_at : jobs_screen * app) : jobs_screen * app :=
  let (s, st) := now_at in
  match ev with
  | EndReached reply => (s, snd (handleLoadMore reply s st))
  | Pulled reply =>
      (fst (handleRefresh reply s), snd (snd (handleRefresh reply s) st))
  | TryAgain reply => (s, snd (fetchJobs reply 1 st))
  | NetInfo connected =>
      (JobsScreenState (page s) (initialLoading s) (refreshing s) (hasMore s)
         connected, st)
  end.

Definition jobs_screen_run (events : list jobs_screen_event)
    (start : jobs_screen * app) : jobs_screen * app :=
  fold_left (fun now_at ev => jobs_screen_step ev now_at) events start.

(** ** Vocabulary of the statements *)

(** The next AsyncStorage call goes through. *)
Definition next_call_ok (st : app) : Prop := hd false (faults st) = false.

(** Whether the repair that follows a failed first parse goes wrong: the
    [removeItem] call or the [getItem] of the retry rejects. *)
Definition repair_fails (st : app) : bool :=
  hd false (tail (faults st)) || hd false (tail (tail (faults st))).

(** The fallback chain as the specification words it: the body itself if
    it is an array; else, for an object, its [results], then [jobs], then
    [data] field, the first one that has something; else the empty array. *)
Definition fallback_chain (body : value) : value :=
  match body with
  | VArray _ => body
  | VObject fields =>
      if truthy (field "results" fields) then field "results" fields
      else if truthy (field "jobs" fields) then field "jobs" fields
      else if truthy (field "data" fields) then field "data" fields
      else VArray []
  | _ => VArray []
  end.

(** A call fails when [fetch] rejects, the status is not a success, or the
    body does not parse. *)
Definition fetch_fails (reply : http_reply) : bool :=
  match reply with
  | FetchRejected => true
  | Response ok body =>
      negb ok || match JSON_parse body with Some _ => false | None => true end
  end.

Definition fetch_error : string :=
  "Failed to fetch jobs. Please try again later.".

(** The first [n] AsyncStorage calls to come go through. *)
Definition calls_ok (n : nat) (st : app) : Prop :=
  existsb (fun rejects : bool => rejects) (firstn n (faults st)) = false.

(** [v] is neither [undefined] nor [null]: reading a property of it does
    not throw. *)
Definition has_properties (v : value) : bool :=
  match v with VUndefined | VNull => false | _ => true end.

(** [job[k]] where the read is known not to throw. *)
Definition top (job : value) (k : string) : value :=
  match prop job k with inr v => v | inl _ => VUndefined end.

(** [job.primary_details[k]] when [job.primary_details] is truthy. *)
Definition detail (job : value) (k : string) : value :=
  if truthy (top job "primary_details")
  then top (top job "primary_details") k
  else VUndefined.

Definition numeric (v : value) : bool := String.eqb (typeof v) "number".

(** The object [v] has an own property named [k], whatever its value. *)
Definition present (v : value) (k : string) : bool :=
  match v with
  | VObject fields => existsb (fun kv => String.eqb (fst kv) k) fields
  | _ => false
  end.

Definition own_keys (v : value) : list string :=
  match v with VObject fields => map fst fields | _ => [] end.

(** The essential set of the specification. *)
Definition whitelist : list string :=
  [ "id"; "title"; "company_name"; "salary"; "salary_min"; "salary_max";
    "experience"; "locality"; "city_location"; "job_type"; "qualification";
    "primary_details"; "contentV3"; "other_details"; "whatsapp_no"; "phone";
    "job_tags"; "openings_count"; "tags"; "created_on"; "updated_on";
    "expire_on"; "views" ].

(** Resolution of experience, job_type and qualification as the code does
    it: the detail wins when the top-level value is a number and the
    detail is truthy. *)
Definition resolve (job : value) (field_name detail_name : string) : value :=
  if numeric (top job field_name) && truthy (detail job detail_name)
  then detail job detail_name
  else top job field_name.

(** Resolution of salary as the code does it. *)
Definition resolve_salary (job : value) : value :=
  if truthy (detail job "Salary") then detail job "Salary"
  else top job "salary".

(** The same two rules with the test the specification names: the detail
    field exists. *)
Definition resolve_if_present (job : value) (field_name detail_name : string)
  : value :=
  if numeric (top job field_name)
     && present (top job "primary_details") detail_name
  then top (top job "primary_details") detail_name
  else top job field_name.

Definition resolve_salary_if_present (job : value) : value :=
  if present (top job "primary_details") "Salary"
  then top (top job "primary_details") "Salary"
  else top job "salary".

(** What [essential] builds out of a job whose properties can be read. *)
Definition essential_record (job : value) : value :=
  VObject
    [ ("id", top job "id");
      ("title", top job "title");
      ("company_name", top job "company_name");
      ("salary", resolve_salary job);
      ("salary_min", top job "salary_min");
      ("salary_max", top job "salary_max");
      ("experience", resolve job "experience" "Experience");
      ("locality", top job "locality");
      ("city_location", top job "city_location");
      ("job_type", resolve job "job_type" "Job_Type");
      ("qualification", resolve job "qualification" "Qualification");
      ("primary_details", top job "primary_details");
      ("contentV3", top job "contentV3");
      ("other_details", top job "other_details");
      ("whatsapp_no", top job "whatsapp_no");
      ("phone", top job "phone");
      ("job_tags", top job "job_tags");
      ("openings_count", top job "openings_count");
      ("tags", top job "tags");
      ("created_on", top job "created_on");
      ("updated_on", top job "updated_on");
      ("expire_on", top job "expire_on");
      ("views", top job "views") ].

(** The [id] of a record, and membership and removal by [===] on it. *)
Definition id_of (record : value) : value := top record "id".
Definition ids (items : list value) : list value := map id_of items.
Definition has_id (jobId : value) (items : list value) : bool :=
  existsb (fun record => strict_eq (id_of record) jobId) items.
Definition without_id (jobId : value) (items : list value) : list value :=
  List.filter (fun record => negb (strict_eq (id_of record) jobId)) items.
Definition all_records (items : list value) : Prop :=
  Forall (fun record => has_properties record = true) items.

(** A field of the response that is a list or is not there. *)
Definition array_or_absent (v : value) : bool :=
  match v with
  | VArray _ | VUndefined | VNull => true
  | _ => false
  end.

(** ** Properties *)

Lemma has_text_Some (t : string) :
  has_text (Some t) = true <-> t <> EmptyString.
Proof.
  simpl. destruct (String.eqb_spec t EmptyString); simpl; split;
    congruence.
Qed.

(** Congruence rules of the combinators, at a given state. *)
Lemma bind_ext_k {A B} (m : action A) (k1 k2 : A -> action B) (st : app) :
  (forall a st', k1 a st' = k2 a st') -> bind m k1 st = bind m k2 st.
Proof.
  intros Hk. unfold bind. destruct (m st) as [[a | e | ] st']; auto.
Qed.

Lemma bind_ext_m {A B} (m1 m2 : action A) (k : A -> action B) (st : app) :
  m1 st = m2 st -> bind m1 k st = bind m2 k st.
Proof. intros Hm. unfold bind. rewrite Hm. reflexivity. Qed.

Lemma try_catch_ext_body {A} (b1 b2 : action A) (h : exn -> action A)
    (st : app) :
  b1 st = b2 st -> try_catch b1 h st = try_catch b2 h st.
Proof. intros Hb. unfold try_catch. rewrite Hb. reflexivity. Qed.

Lemma try_catch_ext_handler {A} (b : action A) (h1 h2 : exn -> action A)
    (st : app) :
  (forall e st', h1 e st' = h2 e st') ->
  try_catch b h1 st = try_catch b h2 st.
Proof.
  intros Hh. unfold try_catch. destruct (b st) as [[a | e | ] st']; auto.
Qed.

Lemma try_finally_ext {A} (b1 b2 : action A) (c : action unit) (st : app) :
  b1 st = b2 st -> try_finally b1 c st = try_finally b2 c st.
Proof. intros Hb. unfold try_finally. rewrite Hb. reflexivity. Qed.

Ltac unfold_ops :=
  unfold try_finally, try_catch, bind, ret, throw, lift, parse, modify,
    setBookmarks, setJobs, setLoading, setError, setCurrentPage,
    console_log, console_error, Alert_alert,
    AsyncStorage_getItem, AsyncStorage_setItem, AsyncStorage_removeItem,
    storage_call in *.

(** *** loadBookmarks *)

(** The body depends on [self] only through the call at [retryCount + 1]. *)
Lemma loadBookmarks_body_ext (self1 self2 : Z -> action unit)
    (retryCount : Z) (st : app) :
  (forall st', self1 (retryCount + 1)%Z st' = self2 (retryCount + 1)%Z st') ->
  loadBookmarks_body self1 retryCount st
  = loadBookmarks_body self2 retryCount st.
Proof.
  intros Hself. unfold loadBookmarks_body.
  apply try_finally_ext. apply try_catch_ext_handler. intros err st1.
  apply bind_ext_k. intros _ st2. apply bind_ext_m.
  destruct (retryCount =? 0)%Z; [ | reflexivity ].
  apply bind_ext_k. intros _ st3. apply bind_ext_k. intros cleared st4.
  destruct cleared; [ | reflexivity ].
  apply bind_ext_m. apply Hself.
Qed.

(** With the guard closed the body never calls [self]. *)
Lemma loadBookmarks_body_closed (self1 self2 : Z -> action unit)
    (retryCount : Z) (st : app) :
  retryCount <> 0%Z ->
  loadBookmarks_body self1 retryCount st
  = loadBookmarks_body self2 retryCount st.
Proof.
  intros Hrc. apply Z.eqb_neq in Hrc.
  unfold loadBookmarks_body. unfold_ops. cbn. rewrite Hrc. reflexivity.
Qed.

(** Fuel 2 is enough: any larger amount gives the same run. *)
Lemma loadBookmarks_fuel_enough (n : nat) (retryCount : Z) (st : app) :
  loadBookmarks_fuel (2 + n) retryCount st = loadBookmarks retryCount st.
Proof.
  unfold loadBookmarks. cbn [Nat.add loadBookmarks_fuel].
  destruct (Z.eq_dec retryCount 0%Z) as [-> | Hrc].
  - apply loadBookmarks_body_ext. intros st'.
    apply loadBookmarks_body_closed. lia.
  - apply loadBookmarks_body_closed. exact Hrc.
Qed.

(** A run of [loadBookmarks] never runs out of fuel and never throws. *)
Lemma loadBookmarks_returns (retryCount : Z) (st : app) :
  fst (loadBookmarks retryCount st) = Returned tt.
Proof.
  unfold loadBookmarks. cbn [loadBookmarks_fuel].
  unfold loadBookmarks_body. unfold_ops. cbn.
  destruct (hd false (faults st)); cbn.
  2: destruct (has_text (storage st !! primary_key)); cbn.
  2: destruct (JSON_parse _); cbn.
  all: try reflexivity.
  all: destruct (retryCount =? 0)%Z eqn:Hrc; cbn; try reflexivity.
  all: destruct (hd false (tail (faults st))); cbn; try reflexivity.
  all: destruct (hd false (tail (tail (faults st)))); cbn.
  all: try (rewrite Z.add_comm, Hrc in * ); try reflexivity.
  all: try (apply Z.eqb_eq in Hrc; subst retryCount; cbn).
  all: try reflexivity.
  all: destruct (has_text _); cbn; try reflexivity.
  all: destruct (JSON_parse _); reflexivity.
Qed.

(** C1 (as the code has it).  A stored bundle [{ timestamp, jobs }] that is
    present and parses is put into the [bookmarks] cell whole: after
    [loadBookmarks] the cell holds the bundle object, which is not its
    [jobs] list. *)
Theorem loadBookmarks_stores_whole_bundle
    (st : app) (text timestamp : string) (records : list value) :
  storage st !! primary_key = Some text ->
  text <> EmptyString ->
  next_call_ok st ->
  JSON_parse text = Some (bookmarksData timestamp records) ->
  fst (loadBookmarks 0 st) = Returned tt /\
  bookmarks (snd (loadBookmarks 0 st)) = bookmarksData timestamp records /\
  bookmarks (snd (loadBookmarks 0 st)) <> VArray records.
Proof.
  intros Hs Hne Hok Hp. apply has_text_Some in Hne.
  unfold next_call_ok in Hok.
  assert (Hrun : bookmarks (snd (loadBookmarks 0 st))
                 = bookmarksData timestamp records).
  { unfold loadBookmarks. cbn [loadBookmarks_fuel].
    unfold loadBookmarks_body. unfold_ops. cbn.
    rewrite Hok, Hs, Hne. cbn. rewrite Hp. reflexivity. }
  split; [ apply loadBookmarks_returns | ].
  split; [ exact Hrun | ].
  rewrite Hrun. discriminate.
Qed.

(** C3.  When the stored text fails to parse, [loadBookmarks] returns
    normally (no exception escapes, the recursion stops), having issued
    exactly one repair (one recovery line, one [removeItem] of the primary
    key) and at most one retry (at most two reads of the key in all).  The
    [bookmarks] cell is left as it was, which is the empty list at start-up.
    If the repair fails the error is set; if it succeeds the primary key is
    gone and the retry has read it once more. *)
Theorem loadBookmarks_repairs_once (st : app) (text : string) :
  storage st !! primary_key = Some text ->
  text <> EmptyString ->
  JSON_parse text = None ->
  next_call_ok st ->
  exists (st' : app) (steps : list event),
    loadBookmarks 0 st = (Returned tt, st') /\
    trace st' = trace st ++ steps /\
    count is_repair_line steps = 1 /\
    count is_removal steps = 1 /\
    count is_read steps <= 2 /\
    bookmarks st' = bookmarks st /\
    (bookmarks st = VArray [] -> bookmarks st' = VArray []) /\
    loading st' = false /\
    (repair_fails st = true ->
       error st' = Some "Failed to load saved jobs") /\
    (repair_fails st = false ->
       count is_read steps = 2 /\
       storage st' !! primary_key = None /\
       error st' = error st).
Proof.
  intros Hs Hne Hp Hok. apply has_text_Some in Hne.
  unfold next_call_ok in Hok. unfold repair_fails.
  unfold loadBookmarks. cbn [loadBookmarks_fuel].
  unfold loadBookmarks_body. unfold_ops. cbn.
  rewrite Hok, Hs, Hne. cbn. rewrite Hp. cbn.
  destruct (hd false (tail (faults st))) eqn:Hremove; cbn.
  - eexists _, _. split; [ reflexivity | ]. cbn.
    rewrite <- !app_assoc. cbn.
    repeat split; try reflexivity; auto; try discriminate. 
  - destruct (hd false (tail (tail (faults st)))) eqn:Hretry; cbn.
    + eexists _, _. split; [ reflexivity | ]. cbn.
      rewrite <- !app_assoc. cbn.
      repeat split; try reflexivity; auto; try discriminate. 
    + rewrite lookup_delete_eq. cbn.
      eexists _, _. split; [ reflexivity | ]. cbn.
      rewrite <- !app_assoc. cbn.
      repeat split; try reflexivity; auto; try discriminate.
      apply lookup_delete_eq.
Qed.

(** *** fetchJobs *)

(** The selection in [fetchJobs] never throws and is that chain. *)
Lemma jobsArray_of_chain (responseData : value) :
  jobsArray_of responseData = inr (fallback_chain responseData).
Proof.
  destruct responseData as [ | | b | n | s | items | fields ];
    try reflexivity.
  - destruct b; reflexivity.
  - unfold jobsArray_of. cbn. destruct (n =? 0)%Z; reflexivity.
  - unfold jobsArray_of. cbn. destruct (String.eqb s EmptyString); reflexivity.
  - unfold jobsArray_of, js_or. cbn.
    destruct (truthy (field "results" fields)) eqn:Hr; rewrite ?Hr;
      [ reflexivity | ].
    destruct (truthy (field "jobs" fields)) eqn:Hj; rewrite ?Hj;
      [ reflexivity | ].
    destruct (truthy (field "data" fields)) eqn:Hd; rewrite ?Hd; reflexivity.
Qed.

Lemma fetchJobs_failure_run (reply : http_reply) (page : Z) (st : app) :
  fetch_fails reply = true ->
  fetchJobs reply page st
  = (Returned tt,
     set_loading false
       (set_error (Some fetch_error)
          (emit (ConsoleError "Error fetching jobs:")
             (set_error None (set_loading true st))))).
Proof.
  intros Hfail. unfold fetchJobs, fetch. unfold_ops.
  destruct reply as [ | ok body ]; cbn in *; [ reflexivity | ].
  destruct ok; cbn in *; [ | reflexivity ].
  destruct (JSON_parse body); [ discriminate | reflexivity ].
Qed.

Lemma fetchJobs_success_run (body : string) (page : Z) (st : app)
    (responseData : value) :
  JSON_parse body = Some responseData ->
  fetchJobs (Response true body) page st
  = (let st1 := set_error None (set_loading true st) in
     let st2 :=
       if (page =? 1)%Z then set_jobs (fallback_chain responseData) st1
       else match (let? prev := spread (jobs st) in
                   let? more := spread (fallback_chain responseData) in
                   inr (VArray (prev ++ more))) with
            | inr v => set_jobs v st1
            | inl _ => set_render_error st1
            end in
     (Returned tt, set_loading false (set_currentPage page st2))).
Proof.
  intros Hp. unfold fetchJobs, fetch. unfold_ops. cbn.
  rewrite Hp. cbn. rewrite jobsArray_of_chain. cbn.
  destruct (page =? 1)%Z; cbn; [ reflexivity | ].
  unfold setJobs_with. cbn.
  destruct (spread (jobs st)) as [ e | prev ]; cbn; [ reflexivity | ].
  destruct (spread (fallback_chain responseData)); reflexivity.
Qed.

(** C2.  On a successful call the array the fallback chain extracts from
    the body replaces the listing when [page] is 1 and is appended to it
    otherwise (so the length grows by the extracted count); the page
    counter becomes [page] on success and keeps its value on failure. *)
Theorem fetchJobs_replaces_or_appends :
  (forall (st : app) (body : string) (page : Z)
          (responseData : value) (previous extracted : list value),
      JSON_parse body = Some responseData ->
      fallback_chain responseData = VArray extracted ->
      jobs st = VArray previous ->
      let run := fetchJobs (Response true body) page st in
      fst run = Returned tt /\
      jobsArray_of responseData = inr (VArray extracted) /\
      (page = 1%Z -> jobs (snd run) = VArray extracted) /\
      (page <> 1%Z ->
         jobs (snd run) = VArray (previous ++ extracted) /\
         exists now_listed,
           jobs (snd run) = VArray now_listed /\
           length now_listed = length previous + length extracted) /\
      currentPage (snd run) = page /\
      render_error (snd run) = render_error st) /\
  (forall (st : app) (reply : http_reply) (page : Z),
      fetch_fails reply = true ->
      currentPage (snd (fetchJobs reply page st)) = currentPage st).
Proof.
  split.
  - intros st body page responseData previous extracted Hp Hx Hjobs run.
    subst run. rewrite (fetchJobs_success_run body page st responseData Hp).
    rewrite jobsArray_of_chain, Hx, Hjobs. cbn.
    split; [ reflexivity | ]. split; [ reflexivity | ].
    split; [ intros -> ; reflexivity | ].
    split.
    + intros Hpage. apply Z.eqb_neq in Hpage. rewrite Hpage. cbn.
      split; [ reflexivity | ].
      exists (previous ++ extracted). split; [ reflexivity | ].
      apply length_app.
    + destruct (page =? 1)%Z; split; reflexivity.
  - intros st reply page Hfail.
    rewrite (fetchJobs_failure_run reply page st Hfail). reflexivity.
Qed.

(** C6.  A failing call returns normally with the error message set, the
    listing as it was and the loading flag cleared; and whatever the error
    slot held before, a call that succeeds leaves it cleared and a call
    that fails leaves the fetch message in it. *)
Theorem fetchJobs_failure_and_error_slot :
  (forall (st : app) (reply : http_reply) (page : Z),
      fetch_fails reply = true ->
      let run := fetchJobs reply page st in
      fst run = Returned tt /\
      error (snd run) = Some fetch_error /\
      jobs (snd run) = jobs st /\
      loading (snd run) = false) /\
  (forall (st : app) (reply : http_reply) (page : Z),
      fetch_fails reply = false ->
      let run := fetchJobs reply page st in
      fst run = Returned tt /\
      error (snd run) = None /\
      loading (snd run) = false).
Proof.
  split.
  - intros st reply page Hfail run. subst run.
    rewrite (fetchJobs_failure_run reply page st Hfail).
    repeat split.
  - intros st reply page Hok run. subst run.
    destruct reply as [ | ok body ]; cbn in Hok; [ discriminate | ].
    destruct ok; cbn in Hok; [ | discriminate ].
    destruct (JSON_parse body) as [ responseData | ] eqn:Hp;
      [ | discriminate ].
    rewrite (fetchJobs_success_run body page st responseData Hp). cbn.
    destruct (page =? 1)%Z; cbn; [ repeat split | ].
    destruct (spread (jobs st)) as [ e | prev ]; cbn; [ repeat split | ].
    destruct (spread (fallback_chain responseData)); repeat split.
Qed.

(** *** saveBookmarks *)

Ltac case_condition :=
  match goal with
  | |- context [if ?c then _ else _] => destruct c eqn:?
  end.

Lemma essential_closed_form (job : value) :
  has_properties job = true -> essential job = inr (essential_record job).
Proof.
  intros Hjob.
  unfold essential, essential_record, numeric_with_detail, resolve,
    resolve_salary, detail, top, numeric, js_or.
  destruct job as [ | | b | n | s | items | fields ]; try discriminate;
    try reflexivity.
  cbn.
  destruct (field "primary_details" fields) as [ | | b | n | s | l | pd ];
    cbn; repeat (case_condition; cbn); try reflexivity; try congruence.
Qed.

Lemma essential_inr (job record : value) :
  essential job = inr record ->
  has_properties job = true /\ record = essential_record job.
Proof.
  intros H. destruct (has_properties job) eqn:Hjob.
  - rewrite (essential_closed_form job Hjob) in H. split; congruence.
  - destruct job; discriminate.
Qed.

Lemma map_throwing_essential (items records : list value) :
  map_throwing essential items = inr records ->
  records = map essential_record items /\
  Forall (fun job => has_properties job = true) items.
Proof.
  revert records. induction items as [ | job rest IH ]; intros records H.
  - cbn in H. injection H as <-. split; [ reflexivity | constructor ].
  - cbn in H. destruct (essential job) as [ e | r ] eqn:Hjob; cbn in H;
      [ discriminate | ].
    destruct (map_throwing essential rest) as [ e | rs ]; cbn in H;
      [ discriminate | ].
    injection H as <-. apply essential_inr in Hjob as [Hp ->].
    destruct (IH rs eq_refl) as [-> Hrest].
    split; [ reflexivity | constructor; assumption ].
Qed.

(** [saveBookmarks] returns normally whatever happens inside, and touches
    neither the [bookmarks] nor the [jobs] cell. *)
Lemma saveBookmarks_frame (updatedBookmarks : value) (st : app) :
  fst (saveBookmarks updatedBookmarks st) = Returned tt /\
  bookmarks (snd (saveBookmarks updatedBookmarks st)) = bookmarks st /\
  jobs (snd (saveBookmarks updatedBookmarks st)) = jobs st /\
  render_error (snd (saveBookmarks updatedBookmarks st)) = render_error st.
Proof.
  unfold saveBookmarks. unfold_ops.
  destruct updatedBookmarks as [ | | b | n | s | items | fields ]; cbn;
    try (repeat split; reflexivity).
  destruct (map_throwing essential items) as [ e | records ]; cbn;
    [ repeat split; reflexivity | ].
  destruct (hd false (faults st)); cbn; [ repeat split; reflexivity | ].
  destruct (hd false (tail (faults st))); cbn; repeat split; reflexivity.
Qed.

(** What a call leaves in the store. *)
Lemma saveBookmarks_storage (updatedBookmarks : value) (st : app) :
  storage (snd (saveBookmarks updatedBookmarks st))
  = match updatedBookmarks with
    | VArray items =>
        match map_throwing essential items with
        | inr records =>
            let text := JSON_stringify (bookmarksData now records) in
            if hd false (faults st) then storage st
            else if hd false (tail (faults st))
                 then <[primary_key := text]> (storage st)
                 else <[backup_key := text]>
                        (<[primary_key := text]> (storage st))
        | inl _ => storage st
        end
    | _ => storage st
    end.
Proof.
  unfold saveBookmarks. unfold_ops.
  destruct updatedBookmarks as [ | | b | n | s | items | fields ]; cbn;
    try reflexivity.
  destruct (map_throwing essential items) as [ e | records ]; cbn;
    [ reflexivity | ].
  destruct (hd false (faults st)); cbn; [ reflexivity | ].
  destruct (hd false (tail (faults st))); reflexivity.
Qed.

(** C4.  Any text that [saveBookmarks] leaves under a key is the
    serialised bundle of the projections of the records it was given, and
    every projected record has exactly the whitelisted fields, whatever
    else the input record carried. *)
Theorem saveBookmarks_persists_whitelisted
    (st : app) (updatedBookmarks : value) (key text : string) :
  storage (snd (saveBookmarks updatedBookmarks st)) !! key = Some text ->
  storage st !! key <> Some text ->
  exists (items records : list value),
    updatedBookmarks = VArray items /\
    map_throwing essential items = inr records /\
    length records = length items /\
    text = JSON_stringify (bookmarksData now records) /\
    Forall (fun record => own_keys record = whitelist) records /\
    (forall record k,
        In record records -> In k (own_keys record) -> In k whitelist).
Proof.
  intros Hnew Hold. rewrite saveBookmarks_storage in Hnew.
  destruct updatedBookmarks as [ | | b | n | s | items | fields ];
    try congruence.
  destruct (map_throwing essential items) as [ e | records ] eqn:Hmap;
    [ congruence | ].
  destruct (map_throwing_essential items records Hmap) as [Hrecords _].
  assert (Hkeys : Forall (fun record => own_keys record = whitelist) records).
  { subst records. apply List.Forall_forall. intros record Hin.
    apply in_map_iff in Hin as (job & <- & _). reflexivity. }
  assert (Htext : text = JSON_stringify (bookmarksData now records)).
  { cbv zeta in Hnew.
    destruct (hd false (faults st)); [ congruence | ].
    destruct (hd false (tail (faults st))).
    - rewrite lookup_insert in Hnew. case_decide; congruence.
    - rewrite !lookup_insert in Hnew. repeat case_decide; congruence. }
  exists items, records. repeat split; auto.
  - subst records. apply length_map.
  - intros record k Hin Hk. rewrite List.Forall_forall in Hkeys.
    rewrite (Hkeys record Hin) in Hk. exact Hk.
Qed.

(** C5 (amended).  In the projection, experience, job_type and
    qualification are the capitalised [primary_details] value when the
    top-level value is a number and that detail is truthy, and the
    top-level value otherwise; salary is [primary_details.Salary] when
    that is truthy and the top-level salary otherwise. *)
Theorem essential_resolves_by_truthiness (job record : value) :
  essential job = inr record ->
  top record "experience" = resolve job "experience" "Experience" /\
  top record "job_type" = resolve job "job_type" "Job_Type" /\
  top record "qualification" = resolve job "qualification" "Qualification" /\
  top record "salary" = resolve_salary job.
Proof.
  intros H. apply essential_inr in H as [_ ->]. repeat split.
Qed.

(** *** isBookmarked, toggleBookmark *)

Lemma strict_eq_true (a b : value) : strict_eq a b = true -> a = b.
Proof.
  destruct a, b; cbn; try discriminate; intros H; try reflexivity.
  - apply Bool.eqb_prop in H. congruence.
  - apply Z.eqb_eq in H. congruence.
  - apply String.eqb_eq in H. congruence.
Qed.

Lemma strict_eq_refl (a : value) : primitive a = true -> strict_eq a a = true.
Proof.
  destruct a; cbn; try discriminate; intros _; try reflexivity.
  - apply Bool.eqb_reflx.
  - apply Z.eqb_refl.
  - apply String.eqb_refl.
Qed.

Lemma strict_eq_false (a b : value) :
  primitive b = true -> strict_eq a b = false -> a <> b.
Proof.
  intros Hb Hne ->. rewrite (strict_eq_refl b Hb) in Hne. discriminate.
Qed.

Lemma prop_top (v : value) (k : string) :
  has_properties v = true -> prop v k = inr (top v k).
Proof. destruct v; cbn; try discriminate; reflexivity. Qed.

Lemma some_id_is_has_id (jobId : value) (items : list value) :
  all_records items -> some_id_is jobId items = inr (has_id jobId items).
Proof.
  induction 1 as [ | record rest Hrecord _ IH ]; [ reflexivity | ].
  cbn. rewrite (prop_top record "id" Hrecord). cbn. fold (id_of record).
  destruct (strict_eq (id_of record) jobId); [ reflexivity | exact IH ].
Qed.

Lemma filter_id_isnt_without_id (job : value) (items : list value) :
  has_properties job = true -> all_records items ->
  filter_id_isnt job items = inr (without_id (id_of job) items).
Proof.
  intros Hjob. induction 1 as [ | record rest Hrecord _ IH ];
    [ reflexivity | ].
  cbn. rewrite (prop_top record "id" Hrecord), (prop_top job "id" Hjob), IH.
  cbn. fold (id_of record). fold (id_of job).
  destruct (strict_eq (id_of record) (id_of job)); reflexivity.
Qed.

Lemma has_id_true (jobId : value) (items : list value) :
  has_id jobId items = true <->
  exists record, In record items /\ strict_eq (id_of record) jobId = true.
Proof. unfold has_id. apply existsb_exists. Qed.

Lemma has_id_without_id (jobId : value) (items : list value) :
  has_id jobId (without_id jobId items) = false.
Proof.
  destruct (has_id jobId (without_id jobId items)) eqn:H; [ | reflexivity ].
  apply has_id_true in H as (record & Hin & Heq).
  apply List.filter_In in Hin as [_ Hkept]. rewrite Heq in Hkept. discriminate.
Qed.

Lemma without_id_absent (jobId : value) (items : list value) :
  has_id jobId items = false -> without_id jobId items = items.
Proof.
  induction items as [ | record rest IH ]; [ reflexivity | ].
  cbn. destruct (strict_eq (id_of record) jobId); cbn; [ discriminate | ].
  intros H. f_equal. exact (IH H).
Qed.

Lemma without_id_app (jobId : value) (items more : list value) :
  without_id jobId (items ++ more)
  = without_id jobId items ++ without_id jobId more.
Proof. unfold without_id. apply List.filter_app. Qed.

Lemma all_records_without_id (jobId : value) (items : list value) :
  all_records items -> all_records (without_id jobId items).
Proof.
  unfold all_records. rewrite !List.Forall_forall. intros H record Hin.
  apply List.filter_In in Hin as [Hin _]. exact (H record Hin).
Qed.

Lemma triggerHaptic_run (type : string) (st : app) :
  exists steps,
    triggerHaptic type st
    = (Returned tt,
       App (bookmarks st) (jobs st) (loading st) (error st) (currentPage st)
           (storage st) (faults st) (trace st ++ steps) (render_error st)).
Proof.
  unfold triggerHaptic.
  destruct (String.eqb Platform_OS "ios");
    [ destruct (String.eqb type "impact");
      [ | destruct (String.eqb type "notification") ] | ].
  1, 2: eexists [_]; reflexivity.
  all: exists []; unfold ret; rewrite app_nil_r; destruct st; reflexivity.
Qed.

(** One toggle from an up-to-date render, over a list of records. *)
Lemma toggleBookmark_run (job : value) (items : list value) (st : app) :
  bookmarks st = VArray items ->
  all_records items ->
  has_properties job = true ->
  exists st',
    toggleBookmark job st = (Returned tt, st') /\
    bookmarks st'
    = VArray (if has_id (id_of job) items
              then without_id (id_of job) items
              else items ++ [job]) /\
    render_error st' = render_error st.
Proof.
  intros Hcell Hitems Hjob.
  unfold toggleBookmark, toggleBookmark_from. unfold bind at 1.
  destruct (triggerHaptic_run "impact" st) as [steps ->].
  unfold toggle_updater. unfold bind, lift, ret, throw.
  rewrite (prop_top job "id" Hjob). fold (id_of job). cbn [bookmarks].
  rewrite Hcell. cbn [isBookmarked].
  rewrite (some_id_is_has_id (id_of job) items Hitems).
  destruct (has_id (id_of job) items).
  - rewrite (filter_id_isnt_without_id job items Hjob Hitems).
    match goal with
    | |- context [saveBookmarks ?v ?s] =>
        destruct (saveBookmarks_frame v s) as (Hr & Hb & _ & He);
        destruct (saveBookmarks v s) as [r st2]
    end.
    cbn in Hr, Hb, He. subst r. eexists. split; [ reflexivity | ].
    split; [ reflexivity | exact He ].
  - cbn [spread]. unfold Alert_alert, modify.
    match goal with
    | |- context [saveBookmarks ?v ?s] =>
        destruct (saveBookmarks_frame v s) as (Hr & Hb & _ & He);
        destruct (saveBookmarks v s) as [r st2]
    end.
    cbn in Hr, Hb, He. subst r. eexists. split; [ reflexivity | ].
    split; [ reflexivity | exact He ].
Qed.

Lemma has_id_in_ids (jobId : value) (items : list value) :
  has_id jobId items = true -> In jobId (ids items).
Proof.
  intros H. apply has_id_true in H as (record & Hin & Heq).
  apply strict_eq_true in Heq as <-. apply in_map. exact Hin.
Qed.

Lemma in_without_id (jobId record : value) (items : list value) :
  primitive jobId = true ->
  In record (without_id jobId items) <->
  In record items /\ id_of record <> jobId.
Proof.
  intros Hprim. unfold without_id. rewrite List.filter_In.
  split; intros [Hin H]; (split; [ exact Hin | ]).
  - apply (strict_eq_false _ _ Hprim).
    destruct (strict_eq (id_of record) jobId); [ discriminate | reflexivity ].
  - destruct (strict_eq (id_of record) jobId) eqn:Heq; [ | reflexivity ].
    apply strict_eq_true in Heq. contradiction.
Qed.

(** C7.  Two toggles in a row, of a job and then of a record with the same
    id (the job itself or a fresher copy of it), each made from an
    up-to-date render, leave the same ids in the bookmark list as before;
    when the id was absent the list itself is back. *)
Theorem toggleBookmark_twice_restores_ids
    (st : app) (items : list value) (job again : value) :
  bookmarks st = VArray items ->
  all_records items ->
  has_properties job = true ->
  has_properties again = true ->
  id_of again = id_of job ->
  primitive (id_of job) = true ->
  exists (st1 st2 : app) (items2 : list value),
    toggleBookmark job st = (Returned tt, st1) /\
    toggleBookmark again st1 = (Returned tt, st2) /\
    bookmarks st2 = VArray items2 /\
    (forall x, In x (ids items2) <-> In x (ids items)) /\
    (has_id (id_of job) items = false -> items2 = items) /\
    render_error st2 = render_error st.
Proof.
  intros Hcell Hitems Hjob Hagain Hid Hprim.
  destruct (toggleBookmark_run job items st Hcell Hitems Hjob)
    as (st1 & Hrun1 & Hcell1 & Herr1).
  destruct (has_id (id_of job) items) eqn:Hmember.
  - (* present: removed, then added back *)
    pose proof (all_records_without_id (id_of job) items Hitems) as Hitems1.
    destruct (toggleBookmark_run again _ st1 Hcell1 Hitems1 Hagain)
      as (st2 & Hrun2 & Hcell2 & Herr2).
    rewrite Hid, has_id_without_id in Hcell2.
    exists st1, st2, (without_id (id_of job) items ++ [again]).
    repeat split; auto; try congruence.
    + unfold ids. rewrite map_app. cbn. rewrite Hid. intros Hx.
      apply in_app_or in Hx as [Hx | [<- | []]].
      * apply in_map_iff in Hx as (record & <- & Hin).
        apply (in_without_id _ _ _ Hprim) in Hin as [Hin _].
        apply in_map. exact Hin.
      * apply has_id_in_ids. exact Hmember.
    + unfold ids. rewrite map_app. cbn. rewrite Hid. intros Hx.
      apply in_map_iff in Hx as (record & <- & Hin). apply in_or_app.
      destruct (strict_eq (id_of record) (id_of job)) eqn:Heq.
      * right. left. symmetry. apply strict_eq_true. exact Heq.
      * left. apply in_map. apply (in_without_id _ _ _ Hprim).
        split; [ exact Hin | ]. apply (strict_eq_false _ _ Hprim Heq).
  - (* absent: added, then removed *)
    assert (Hitems1 : all_records (items ++ [job])).
    { apply Forall_app. split; [ exact Hitems | ].
      constructor; [ exact Hjob | constructor ]. }
    destruct (toggleBookmark_run again _ st1 Hcell1 Hitems1 Hagain)
      as (st2 & Hrun2 & Hcell2 & Herr2).
    assert (Hnow : has_id (id_of job) (items ++ [job]) = true).
    { unfold has_id. rewrite existsb_app. cbn.
      rewrite (strict_eq_refl _ Hprim). apply orb_true_r. }
    rewrite Hid, Hnow, without_id_app in Hcell2.
    rewrite (without_id_absent _ _ Hmember) in Hcell2.
    cbn in Hcell2. rewrite (strict_eq_refl _ Hprim) in Hcell2.
    cbn in Hcell2. rewrite app_nil_r in Hcell2.
    exists st1, st2, items.
    repeat split; auto; try congruence.
Qed.

(** C10.  Membership is [===] on [id]: [isBookmarked] answers true exactly
    when some record of the list has that very id (same type, same value);
    the removal branch of [toggleBookmark] keeps exactly the records whose
    id differs from the job's; and a number never matches a string,
    whatever their spelling. *)
Theorem membership_is_strict_equality :
  (forall (items : list value) (jobId : value),
      all_records items ->
      primitive jobId = true ->
      exists b : bool,
        isBookmarked (VArray items) jobId = inr b /\
        (b = true <->
         exists record, In record items /\ id_of record = jobId)) /\
  (forall (st : app) (items : list value) (job : value),
      bookmarks st = VArray items ->
      all_records items ->
      has_properties job = true ->
      primitive (id_of job) = true ->
      isBookmarked (bookmarks st) (id_of job) = inr true ->
      exists (st' : app) (kept : list value),
        toggleBookmark job st = (Returned tt, st') /\
        bookmarks st' = VArray kept /\
        (forall record,
            In record kept <->
            In record items /\ id_of record <> id_of job)) /\
  (forall (n : Z) (s : string),
      strict_eq (VNumber n) (VString s) = false /\
      strict_eq (VString s) (VNumber n) = false /\
      isBookmarked (VArray [VObject [("id", VNumber n)]]) (VString s)
      = inr false /\
      isBookmarked (VArray [VObject [("id", VString s)]]) (VNumber n)
      = inr false).
Proof.
  split; [ | split ].
  - intros items jobId Hitems Hprim. exists (has_id jobId items).
    split; [ exact (some_id_is_has_id jobId items Hitems) | ].
    rewrite has_id_true. split; intros (record & Hin & Heq);
      exists record; (split; [ exact Hin | ]).
    + apply strict_eq_true. exact Heq.
    + rewrite Heq. apply strict_eq_refl. exact Hprim.
  - intros st items job Hcell Hitems Hjob Hprim Hmember.
    rewrite Hcell in Hmember. cbn in Hmember.
    rewrite (some_id_is_has_id _ _ Hitems) in Hmember.
    injection Hmember as Hmember.
    destruct (toggleBookmark_run job items st Hcell Hitems Hjob)
      as (st' & Hrun & Hcell' & _).
    rewrite Hmember in Hcell'.
    exists st', (without_id (id_of job) items).
    split; [ exact Hrun | ]. split; [ exact Hcell' | ].
    intros record. apply in_without_id. exact Hprim.
  - intros n s. repeat split.
Qed.

(** *** clearBookmarks *)

(** C9.  Confirmed, [clearBookmarks] never touches a key other than the
    primary one, the backup key in particular, and when the removal goes
    through the primary key is deleted and the [bookmarks] cell is the
    empty list; cancelled, store and cell are as before. *)
Theorem clearBookmarks_deletes_primary_only :
  (forall st : app,
      let run := clearBookmarks PressClearAll st in
      fst run = Returned tt /\
      storage (snd run) !! backup_key = storage st !! backup_key /\
      (forall key, key <> primary_key ->
                   storage (snd run) !! key = storage st !! key) /\
      (next_call_ok st ->
         storage (snd run) = delete primary_key (storage st) /\
         storage (snd run) !! primary_key = None /\
         bookmarks (snd run) = VArray [])) /\
  (forall st : app,
      let run := clearBookmarks PressCancel st in
      fst run = Returned tt /\
      storage (snd run) = storage st /\
      bookmarks (snd run) = bookmarks st).
Proof.
  split.
  - intros st run. subst run. unfold clearBookmarks, next_call_ok.
    unfold_ops. cbn.
    destruct (hd false (faults st)); cbn.
    + repeat split; discriminate.
    + match goal with
      | |- context [triggerHaptic ?t ?s] =>
          destruct (triggerHaptic_run t s) as [steps ->]
      end.
      cbn. repeat split.
      * apply lookup_delete_ne. discriminate.
      * intros key Hkey. apply lookup_delete_ne. congruence.
      * apply lookup_delete_eq.
  - intros st run. subst run. unfold clearBookmarks. unfold_ops. cbn.
    repeat split.
Qed.

(** *** verifyAndRepairBookmarks *)

Lemma calls_ok_3 (st : app) :
  calls_ok 3 st ->
  hd false (faults st) = false /\
  hd false (tail (faults st)) = false /\
  hd false (tail (tail (faults st))) = false.
Proof.
  unfold calls_ok.
  destruct (faults st) as [ | [ | ] [ | [ | ] [ | [ | ] rest ] ] ]; cbn;
    intros H; repeat split; congruence.
Qed.

(** The paths of [verifyAndRepairBookmarks] with the store answering:
    when the primary key is missing and the backup key has text, the text
    is copied under the primary key, the backup is kept, and the parsed
    text is returned; when both keys are missing the empty list is
    returned; and when the primary key holds a text that parses, the
    parsed text is returned and the store is untouched. *)
Theorem verifyAndRepairBookmarks_cases (st : app) :
  JSON_parse EmptyString = None ->
  calls_ok 3 st ->
  exists (result : value) (st' : app),
    verifyAndRepairBookmarks st = (Returned result, st') /\
    (forall backup,
        storage st !! primary_key = None ->
        storage st !! backup_key = Some backup ->
        backup <> EmptyString ->
        storage st' !! primary_key = Some backup /\
        storage st' !! backup_key = Some backup /\
        (forall restored, JSON_parse backup = Some restored ->
                          result = restored)) /\
    (storage st !! primary_key = None ->
     storage st !! backup_key = None ->
     result = VArray [] /\ storage st' = storage st) /\
    (forall main held,
        storage st !! primary_key = Some main ->
        JSON_parse main = Some held ->
        result = held /\ storage st' = storage st).
Proof.
  intros Hempty Hok. destruct (calls_ok_3 st Hok) as (H1 & H2 & H3).
  unfold verifyAndRepairBookmarks. unfold_ops. cbn. rewrite H1. cbn.
  rewrite H2. cbn.
  destruct (storage st !! primary_key) as [ main | ] eqn:Hmain;
    destruct (storage st !! backup_key) as [ backup | ] eqn:Hbackup; cbn.
  - (* both present *)
    destruct (String.eqb_spec main EmptyString) as [-> | Hne]; cbn.
    + destruct (String.eqb_spec backup EmptyString) as [-> | Hb]; cbn.
      * eexists _, _. split; [ reflexivity | ].
        repeat split; try congruence.
      * rewrite H3. cbn.
        destruct (JSON_parse backup); eexists _, _;
          (split; [ reflexivity | ]); repeat split; congruence.
    + destruct (JSON_parse main) as [ held | ] eqn:Hp; eexists _, _;
          (split; [ reflexivity | ]); repeat split; congruence.
  - (* primary only *)
    destruct (String.eqb_spec main EmptyString) as [-> | Hne]; cbn.
    + eexists _, _. split; [ reflexivity | ]. repeat split; congruence.
    + destruct (JSON_parse main) as [ held | ] eqn:Hp; eexists _, _;
          (split; [ reflexivity | ]); repeat split; congruence.
  - (* backup only *)
    destruct (String.eqb_spec backup EmptyString) as [-> | Hb]; cbn.
    + eexists _, _. split; [ reflexivity | ]. repeat split; congruence.
    + rewrite H3. cbn.
      destruct (JSON_parse backup) as [ restored | ] eqn:Hp; eexists _, _;
        (split; [ reflexivity | ]); cbn; (split; [ | split ]);
        try congruence.
      all: intros b _ [= <-] _; rewrite lookup_insert_eq;
        rewrite lookup_insert_ne by discriminate;
        repeat split; congruence.
  - (* neither *)
    eexists _, _. split; [ reflexivity | ]. repeat split; congruence.
Qed.

(** C8 (as the code has it).  What [verifyAndRepairBookmarks] returns
    for a stored bundle [{ timestamp, jobs }] is the bundle object whole,
    not the restored set: whether it restores the primary key from the
    backup or finds the primary key in place, the result is the parsed
    text itself, which is not the [jobs] list that the text carries (and
    not a list at all, while the empty and the failing paths return the
    empty list). *)
Theorem verifyAndRepairBookmarks_returns_whole_bundle
    (st : app) (text timestamp : string) (records : list value) :
  JSON_parse EmptyString = None ->
  calls_ok 3 st ->
  JSON_parse text = Some (bookmarksData timestamp records) ->
  (storage st !! primary_key = None /\ storage st !! backup_key = Some text) \/
  storage st !! primary_key = Some text ->
  exists st',
    verifyAndRepairBookmarks st
    = (Returned (bookmarksData timestamp records), st') /\
    storage st' !! primary_key = Some text /\
    bookmarksData timestamp records <> VArray records /\
    Array_isArray (bookmarksData timestamp records) = false.
Proof.
  intros Hempty Hok Hp Hstore.
  assert (Hne : text <> EmptyString) by (intros ->; congruence).
  destruct (verifyAndRepairBookmarks_cases st Hempty Hok)
    as (result & st' & Hrun & Hrestore & _ & Hmain).
  destruct Hstore as [[Hprimary Hbackup] | Hprimary].
  - destruct (Hrestore text Hprimary Hbackup Hne) as (Hcopied & _ & Hresult).
    rewrite (Hresult _ Hp) in Hrun.
    exists st'. split; [ exact Hrun | ]. split; [ exact Hcopied | ].
    split; [ discriminate | reflexivity ].
  - destruct (Hmain text _ Hprimary Hp) as (Hresult & Hsame).
    rewrite Hresult in Hrun.
    exists st'. split; [ exact Hrun | ].
    split; [ rewrite Hsame; exact Hprimary | ].
    split; [ discriminate | reflexivity ].
Qed.

(** ** Further properties of the provider *)

(** *** loadBookmarks, the other paths *)

(** Every path of a run, for the frame properties below. *)
Ltac loadBookmarks_paths st retryCount :=
  unfold loadBookmarks; cbn [loadBookmarks_fuel];
  unfold loadBookmarks_body; unfold_ops; cbn;
  destruct (hd false (faults st)); cbn;
  [ | destruct (has_text (storage st !! primary_key)); cbn;
      [ destruct (JSON_parse _); cbn | ] ];
  destruct (Z.eqb_spec retryCount 0) as [-> | ?]; cbn;
  try (destruct (hd false (tail (faults st))); cbn);
  try (destruct (hd false (tail (tail (faults st)))); cbn);
  try (destruct (has_text _); cbn);
  try (destruct (JSON_parse _); cbn).

(** With nothing under the primary key (no entry, or the empty text) a
    run reads once and changes no cell but [loading]: no parse, no
    repair, no error. *)
Theorem loadBookmarks_nothing_stored (retryCount : Z) (st : app) :
  next_call_ok st ->
  has_text (storage st !! primary_key) = false ->
  exists st',
    loadBookmarks retryCount st = (Returned tt, st') /\
    bookmarks st' = bookmarks st /\
    error st' = error st /\
    storage st' = storage st /\
    loading st' = false /\
    trace st' = trace st ++ [GetItem primary_key].
Proof.
  unfold next_call_ok. intros Hok Hnone.
  unfold loadBookmarks. cbn [loadBookmarks_fuel].
  unfold loadBookmarks_body. unfold_ops. cbn.
  rewrite Hok. cbn. rewrite Hnone. cbn.
  eexists. split; [ reflexivity | ]. repeat split.
Qed.

(** A first read that rejects is handled like a corrupt text: when the
    removal goes through, the primary key is deleted, whatever it held.
    If the retry read then succeeds no error is left behind. *)
Theorem loadBookmarks_read_rejection_deletes (st : app) :
  hd false (faults st) = true ->
  hd false (tail (faults st)) = false ->
  exists st',
    loadBookmarks 0 st = (Returned tt, st') /\
    storage st' = delete primary_key (storage st) /\
    bookmarks st' = bookmarks st /\
    count is_removal (skipn (length (trace st)) (trace st')) = 1 /\
    (hd false (tail (tail (faults st))) = false -> error st' = error st) /\
    (hd false (tail (tail (faults st))) = true ->
       error st' = Some "Failed to load saved jobs").
Proof.
  intros Hread Hremove.
  unfold loadBookmarks. cbn [loadBookmarks_fuel].
  unfold loadBookmarks_body. unfold_ops. cbn.
  rewrite Hread. cbn. rewrite Hremove. cbn.
  destruct (hd false (tail (tail (faults st)))); cbn.
  - eexists. split; [ reflexivity | ]. cbn.
    rewrite <- !app_assoc, skipn_app, skipn_all, Nat.sub_diag. cbn.
    repeat split; congruence.
  - rewrite lookup_delete_eq. cbn.
    eexists. split; [ reflexivity | ]. cbn.
    rewrite <- !app_assoc, skipn_app, skipn_all, Nat.sub_diag. cbn.
    repeat split; congruence.
Qed.

(** Whatever happens, a run ends with [loading] false, leaves the listing
    cells alone, and does nothing to the store except, on a first
    attempt, delete the primary key: it never writes, and never touches
    the backup. *)
Theorem loadBookmarks_frame (retryCount : Z) (st : app) :
  loading (snd (loadBookmarks retryCount st)) = false /\
  jobs (snd (loadBookmarks retryCount st)) = jobs st /\
  currentPage (snd (loadBookmarks retryCount st)) = currentPage st /\
  (storage (snd (loadBookmarks retryCount st)) = storage st \/
   retryCount = 0%Z /\
   storage (snd (loadBookmarks retryCount st))
   = delete primary_key (storage st)) /\
  storage (snd (loadBookmarks retryCount st)) !! backup_key
  = storage st !! backup_key.
Proof.
  loadBookmarks_paths st retryCount.
  all: repeat split; auto.
  all: try (apply lookup_delete_ne; discriminate).
Qed.

(** *** saveBookmarks, the write and its failures *)

Lemma calls_ok_2 (st : app) :
  calls_ok 2 st ->
  hd false (faults st) = false /\ hd false (tail (faults st)) = false.
Proof.
  unfold calls_ok.
  destruct (faults st) as [ | [ | ] [ | [ | ] rest ] ]; cbn;
    intros H; repeat split; congruence.
Qed.

Lemma map_throwing_readable (items : list value) :
  all_records items ->
  map_throwing essential items = inr (map essential_record items).
Proof.
  induction 1 as [ | job rest Hjob _ IH ]; [ reflexivity | ].
  cbn. rewrite (essential_closed_form job Hjob), IH. reflexivity.
Qed.

Lemma map_throwing_unreadable (items : list value) :
  Exists (fun record => has_properties record = false) items ->
  map_throwing essential items = inl TypeError.
Proof.
  induction 1 as [ job rest Hjob | job rest _ IH ].
  - destruct job; try discriminate; reflexivity.
  - cbn. rewrite IH. destruct (has_properties job) eqn:Hjob.
    + rewrite (essential_closed_form job Hjob). reflexivity.
    + destruct job; try discriminate; reflexivity.
Qed.

(** A list of readable records, with the store answering: both keys end
    up holding one and the same text, the serialised bundle of the
    projections; no other key changes and no error is raised. *)
Theorem saveBookmarks_writes_both_keys (items : list value) (st : app) :
  all_records items ->
  calls_ok 2 st ->
  exists st',
    saveBookmarks (VArray items) st = (Returned tt, st') /\
    storage st' !! primary_key
    = Some (JSON_stringify (bookmarksData now (map essential_record items))) /\
    storage st' !! backup_key = storage st' !! primary_key /\
    (forall key, key <> primary_key -> key <> backup_key ->
                 storage st' !! key = storage st !! key) /\
    error st' = error st /\
    bookmarks st' = bookmarks st.
Proof.
  intros Hitems Hok. destruct (calls_ok_2 st Hok) as [H1 H2].
  unfold saveBookmarks. unfold_ops. cbn.
  rewrite (map_throwing_readable items Hitems). cbn.
  rewrite H1. cbn. rewrite H2. cbn.
  eexists. split; [ reflexivity | ]. cbn.
  split; [ rewrite lookup_insert_ne by discriminate; apply lookup_insert_eq | ].
  split.
  { rewrite lookup_insert_eq, lookup_insert_ne by discriminate.
    rewrite lookup_insert_eq. reflexivity. }
  split; [ | split; reflexivity ].
  intros key Hp Hb. rewrite !lookup_insert_ne by congruence. reflexivity.
Qed.

(** What is not a list, or a list with [null] or [undefined] in it, is
    refused before any storage call: the store is as it was, the error
    is set and the storage alert is shown; nothing is thrown. *)
Theorem saveBookmarks_refuses_invalid (updatedBookmarks : value) (st : app) :
  Array_isArray updatedBookmarks = false \/
  (exists items,
      updatedBookmarks = VArray items /\
      Exists (fun record => has_properties record = false) items) ->
  exists st',
    saveBookmarks updatedBookmarks st = (Returned tt, st') /\
    storage st' = storage st /\
    faults st' = faults st /\
    bookmarks st' = bookmarks st /\
    error st' = Some "Failed to save job" /\
    trace st'
    = trace st ++ [ConsoleError "Error saving bookmarks:";
                   AlertShown "Storage Error"].
Proof.
  intros [Hshape | (items & -> & Hbad)]; unfold saveBookmarks; unfold_ops.
  - destruct updatedBookmarks; try discriminate; cbn;
      (eexists; split; [ reflexivity | ]); cbn;
      rewrite <- app_assoc; repeat split.
  - cbn. rewrite (map_throwing_unreadable items Hbad). cbn.
    eexists. split; [ reflexivity | ]. cbn.
    rewrite <- app_assoc. repeat split.
Qed.

(** The two writes are not atomic.  If the first rejects, no key
    changes; if the first goes through and the second rejects, the
    primary key holds the new text while the backup keeps what it had.
    Both times the error is set and the call returns normally. *)
Theorem saveBookmarks_partial_write (items : list value) (st : app) :
  all_records items ->
  (hd false (faults st) = true ->
   storage (snd (saveBookmarks (VArray items) st)) = storage st /\
   error (snd (saveBookmarks (VArray items) st)) = Some "Failed to save job")
  /\
  (hd false (faults st) = false ->
   hd false (tail (faults st)) = true ->
   storage (snd (saveBookmarks (VArray items) st)) !! primary_key
   = Some (JSON_stringify (bookmarksData now (map essential_record items))) /\
   storage (snd (saveBookmarks (VArray items) st)) !! backup_key
   = storage st !! backup_key /\
   error (snd (saveBookmarks (VArray items) st)) = Some "Failed to save job")
  /\
  fst (saveBookmarks (VArray items) st) = Returned tt.
Proof.
  intros Hitems.
  unfold saveBookmarks. unfold_ops. cbn.
  rewrite (map_throwing_readable items Hitems). cbn.
  destruct (hd false (faults st)); cbn.
  - repeat split; discriminate.
  - destruct (hd false (tail (faults st))); cbn.
    + split; [ discriminate | ]. split; [ | reflexivity ]. intros _ _.
      split; [ apply lookup_insert_eq | ].
      split; [ apply lookup_insert_ne; discriminate | reflexivity ].
    + repeat split; discriminate.
Qed.

Lemma resolve_stable (job : value) (field_name detail_name : string) :
  (if numeric (resolve job field_name detail_name)
      && truthy (detail job detail_name)
   then detail job detail_name
   else resolve job field_name detail_name)
  = resolve job field_name detail_name.
Proof.
  unfold resolve.
  destruct (numeric (top job field_name)) eqn:Hn;
    destruct (truthy (detail job detail_name)) eqn:Ht; cbn;
    rewrite ?Hn, ?Ht, ?andb_false_r; cbn; try reflexivity.
  destruct (numeric (detail job detail_name)); reflexivity.
Qed.

(** Projecting a projected record changes nothing: what was saved
    can be saved again as it is. *)
Theorem essential_record_idempotent (job : value) :
  essential_record (essential_record job) = essential_record job.
Proof.
  unfold essential_record at 1.
  unfold resolve, resolve_salary, detail, numeric.
  cbn [top prop essential_record field String.eqb Ascii.eqb Bool.eqb].
  fold (detail job "Salary") (detail job "Experience")
       (detail job "Job_Type") (detail job "Qualification").
  fold (numeric (resolve job "experience" "Experience"))
       (numeric (resolve job "job_type" "Job_Type"))
       (numeric (resolve job "qualification" "Qualification")).
  rewrite !resolve_stable.
  replace (if truthy (detail job "Salary") then detail job "Salary"
           else resolve_salary job) with (resolve_salary job)
    by (unfold resolve_salary; destruct (truthy (detail job "Salary"));
        reflexivity).
  reflexivity.
Qed.

(** So a record that was projected once goes through [essential]
    unchanged. *)
Lemma essential_of_projected (job : value) :
  essential (essential_record job) = inr (essential_record job).
Proof.
  rewrite essential_closed_form by reflexivity.
  rewrite essential_record_idempotent. reflexivity.
Qed.

(** The same, for the source function: the projection of a job goes
    through the projection unchanged. *)
Theorem essential_idempotent (job record : value) :
  essential job = inr record -> essential record = inr record.
Proof.
  intros H. apply essential_inr in H as [_ ->]. apply essential_of_projected.
Qed.

(** *** toggleBookmark and the store *)

(** A toggle is the haptic, then [saveBookmarks] of the new list, then
    the cell update. *)
Lemma toggleBookmark_unfold (job : value) (items : list value) (st : app) :
  bookmarks st = VArray items ->
  all_records items ->
  has_properties job = true ->
  exists st_mid,
    storage st_mid = storage st /\
    faults st_mid = faults st /\
    toggleBookmark job st
    = (Returned tt,
       set_bookmarks
         (VArray (if has_id (id_of job) items
                  then without_id (id_of job) items
                  else items ++ [job]))
         (snd (saveBookmarks
                 (VArray (if has_id (id_of job) items
                          then without_id (id_of job) items
                          else items ++ [job]))
                 st_mid))).
Proof.
  intros Hcell Hitems Hjob.
  unfold toggleBookmark, toggleBookmark_from. unfold bind at 1.
  destruct (triggerHaptic_run "impact" st) as [steps ->].
  unfold toggle_updater. unfold bind, lift, ret, throw.
  rewrite (prop_top job "id" Hjob). fold (id_of job). cbn [bookmarks].
  rewrite Hcell. cbn [isBookmarked].
  rewrite (some_id_is_has_id (id_of job) items Hitems).
  destruct (has_id (id_of job) items).
  - rewrite (filter_id_isnt_without_id job items Hjob Hitems).
    match goal with
    | |- context [saveBookmarks ?v ?s] =>
        exists s; destruct (saveBookmarks_frame v s) as (Hr & _);
        destruct (saveBookmarks v s) as [r st2]
    end.
    cbn in Hr. subst r. repeat split.
  - cbn [spread]. unfold Alert_alert, modify.
    match goal with
    | |- context [saveBookmarks ?v ?s] =>
        exists s; destruct (saveBookmarks_frame v s) as (Hr & _);
        destruct (saveBookmarks v s) as [r st2]
    end.
    cbn in Hr. subst r. repeat split.
Qed.

(** After a toggle with the store answering, both keys hold the
    serialised projections of exactly the records now in the cell. *)
Theorem toggleBookmark_persists_cell
    (job : value) (items : list value) (st : app) :
  bookmarks st = VArray items ->
  all_records items ->
  has_properties job = true ->
  calls_ok 2 st ->
  exists (st' : app) (items' : list value),
    toggleBookmark job st = (Returned tt, st') /\
    bookmarks st' = VArray items' /\
    storage st' !! primary_key
    = Some (JSON_stringify (bookmarksData now (map essential_record items'))) /\
    storage st' !! backup_key = storage st' !! primary_key.
Proof.
  intros Hcell Hitems Hjob Hok.
  destruct (toggleBookmark_unfold job items st Hcell Hitems Hjob)
    as (st_mid & Hstore & Hfaults & Hrun).
  set (items' := if has_id (id_of job) items
                 then without_id (id_of job) items
                 else items ++ [job]) in *.
  assert (Hitems' : all_records items').
  { subst items'. destruct (has_id (id_of job) items).
    - apply all_records_without_id. exact Hitems.
    - apply Forall_app. split; [ exact Hitems | ].
      constructor; [ exact Hjob | constructor ]. }
  assert (Hok' : calls_ok 2 st_mid).
  { unfold calls_ok in *. rewrite Hfaults. exact Hok. }
  destruct (saveBookmarks_writes_both_keys items' st_mid Hitems' Hok')
    as (st2 & Hsave & Hp & Hb & _).
  rewrite Hsave in Hrun. cbn in Hrun.
  exists (set_bookmarks (VArray items') st2), items'.
  split; [ exact Hrun | ]. split; [ reflexivity | ].
  split; [ exact Hp | exact Hb ].
Qed.

(** When the cell does not hold a list (a loaded bundle object, for
    one), a toggle changes neither cell nor store: the updater throws
    while rendering and nothing is saved. *)
Theorem toggleBookmark_on_non_array (job : value) (st : app) :
  Array_isArray (bookmarks st) = false ->
  isBookmarked (bookmarks st) (id_of job) = inl TypeError /\
  exists st',
    toggleBookmark job st = (Returned tt, st') /\
    render_error st' = true /\
    bookmarks st' = bookmarks st /\
    storage st' = storage st /\
    error st' = error st.
Proof.
  intros Hshape.
  split; [ destruct (bookmarks st); try discriminate; reflexivity | ].
  unfold toggleBookmark, toggleBookmark_from. unfold bind at 1.
  destruct (triggerHaptic_run "impact" st) as [steps ->].
  unfold toggle_updater. unfold bind, lift, ret, throw.
  destruct (prop job "id") as [ e | jid ]; cbn.
  - eexists. split; [ reflexivity | ]. repeat split.
  - destruct (bookmarks st); try discriminate; cbn;
      eexists; (split; [ reflexivity | ]); repeat split.
Qed.

(** *** clearBookmarks and verifyAndRepairBookmarks together *)

Lemma calls_ok_4 (st : app) :
  calls_ok 4 st ->
  hd false (faults st) = false /\
  hd false (tail (faults st)) = false /\
  hd false (tail (tail (faults st))) = false /\
  hd false (tail (tail (tail (faults st)))) = false.
Proof.
  unfold calls_ok.
  destruct (faults st)
    as [ | [ | ] [ | [ | ] [ | [ | ] [ | [ | ] rest ] ] ] ]; cbn;
    intros H; repeat split; congruence.
Qed.

(** Clearing leaves the backup behind, and the repair takes it for a
    lost primary: after a confirmed clear the cell is empty, and a
    following [verifyAndRepairBookmarks] puts the backup text back under
    the primary key and returns it parsed. *)
Theorem clear_then_repair_restores (st : app) (backup : string) :
  storage st !! backup_key = Some backup ->
  backup <> EmptyString ->
  calls_ok 4 st ->
  exists (st1 st2 : app) (result : value),
    clearBookmarks PressClearAll st = (Returned tt, st1) /\
    bookmarks st1 = VArray [] /\
    storage st1 !! primary_key = None /\
    verifyAndRepairBookmarks st1 = (Returned result, st2) /\
    storage st2 !! primary_key = Some backup /\
    bookmarks st2 = VArray [] /\
    (forall restored, JSON_parse backup = Some restored -> result = restored).
Proof.
  intros Hbackup Hne Hok. apply has_text_Some in Hne. cbn [has_text] in Hne.
  destruct (calls_ok_4 st Hok) as (H1 & H2 & H3 & H4).
  assert (Hrepair : forall st1,
            storage st1 = delete primary_key (storage st) ->
            faults st1 = tail (faults st) ->
            exists st2 result,
              verifyAndRepairBookmarks st1 = (Returned result, st2) /\
              storage st2 !! primary_key = Some backup /\
              bookmarks st2 = bookmarks st1 /\
              (forall restored,
                  JSON_parse backup = Some restored -> result = restored)).
  { intros st1 Hstore Hfaults.
    unfold verifyAndRepairBookmarks. unfold_ops. cbn.
    rewrite Hfaults, H2. cbn. rewrite H3. cbn. rewrite !Hstore.
    rewrite lookup_delete_eq, lookup_delete_ne by discriminate.
    rewrite Hbackup. cbn. rewrite Hne. cbn. rewrite H4. cbn.
    destruct (JSON_parse backup) as [ restored | ]; cbn;
      eexists _, _; (split; [ reflexivity | ]); cbn;
      (split; [ apply lookup_insert_eq | ]); (split; [ reflexivity | ]);
      congruence. }
  unfold clearBookmarks. unfold_ops. cbn. rewrite H1. cbn.
  match goal with
  | |- context [triggerHaptic ?t ?s] =>
      destruct (triggerHaptic_run t s) as [steps ->]
  end.
  cbn.
  match goal with
  | |- context [(Returned tt, ?s1)] =>
      destruct (Hrepair s1 eq_refl eq_refl)
        as (st2 & result & Hrun & Hp & Hb & Hresult);
      exists s1, st2, result
  end.
  split; [ reflexivity | ]. split; [ reflexivity | ].
  split; [ apply lookup_delete_eq | ].
  split; [ exact Hrun | ]. split; [ exact Hp | ].
  split; [ rewrite Hb; reflexivity | exact Hresult ].
Qed.

(** A clear whose removal rejects changes neither store nor cell and
    leaves its own message in the error slot. *)
Theorem clearBookmarks_rejected (st : app) :
  hd false (faults st) = true ->
  exists st',
    clearBookmarks PressClearAll st = (Returned tt, st') /\
    storage st' = storage st /\
    bookmarks st' = bookmarks st /\
    error st' = Some "Failed to clear bookmarks".
Proof.
  intros Hreject. unfold clearBookmarks. unfold_ops. cbn.
  rewrite Hreject. cbn. eexists. split; [ reflexivity | ]. repeat split.
Qed.

(** [verifyAndRepairBookmarks] only reports: whatever the store holds
    and whichever calls reject, it returns normally, changes no cell
    (the restored list is not put into [bookmarks]), keeps the backup
    key, and at most copies the backup text under the primary key. *)
Theorem verifyAndRepairBookmarks_frame (st : app) :
  exists (result : value) (st' : app),
    verifyAndRepairBookmarks st = (Returned result, st') /\
    bookmarks st' = bookmarks st /\
    jobs st' = jobs st /\
    error st' = error st /\
    loading st' = loading st /\
    storage st' !! backup_key = storage st !! backup_key /\
    (storage st' = storage st \/
     exists backup,
       storage st !! backup_key = Some backup /\
       has_text (storage st !! primary_key) = false /\
       storage st' = <[primary_key := backup]> (storage st)).
Proof.
  unfold verifyAndRepairBookmarks. unfold_ops. cbn.
  destruct (hd false (faults st)); cbn.
  { eexists _, _. split; [ reflexivity | ]. repeat split; auto. }
  destruct (hd false (tail (faults st))); cbn.
  { eexists _, _. split; [ reflexivity | ]. repeat split; auto. }
  destruct (has_text (storage st !! primary_key)) eqn:Hmain; cbn.
  { destruct (JSON_parse _); cbn;
      eexists _, _; (split; [ reflexivity | ]); repeat split; auto. }
  destruct (storage st !! backup_key) as [ backup | ] eqn:Hbackup; cbn.
  2: { eexists _, _. split; [ reflexivity | ]. repeat split; auto. }
  destruct (negb (String.eqb backup EmptyString)); cbn.
  2: { eexists _, _. split; [ reflexivity | ]. repeat split; auto. }
  destruct (hd false (tail (tail (faults st)))); cbn.
  { eexists _, _. split; [ reflexivity | ]. repeat split; auto. }
  destruct (JSON_parse backup); cbn;
    eexists _, _; (split; [ reflexivity | ]); cbn;
    (repeat split; auto;
     [ rewrite lookup_insert_ne by discriminate; exact Hbackup
     | right; exists backup; repeat split; auto ]).
Qed.

(** *** fetchJobs and loadMoreJobs, the other paths *)

(** Whatever the reply, [fetchJobs] returns normally with [loading]
    false and has not touched the bookmarks or the store. *)
Theorem fetchJobs_frame (reply : http_reply) (page : Z) (st : app) :
  fst (fetchJobs reply page st) = Returned tt /\
  loading (snd (fetchJobs reply page st)) = false /\
  bookmarks (snd (fetchJobs reply page st)) = bookmarks st /\
  storage (snd (fetchJobs reply page st)) = storage st /\
  (currentPage (snd (fetchJobs reply page st)) = page \/
   currentPage (snd (fetchJobs reply page st)) = currentPage st).
Proof.
  destruct (fetch_fails reply) eqn:Hfail.
  - rewrite (fetchJobs_failure_run reply page st Hfail). cbn.
    repeat split; auto.
  - destruct reply as [ | ok body ]; cbn in Hfail; [ discriminate | ].
    destruct ok; cbn in Hfail; [ | discriminate ].
    destruct (JSON_parse body) as [ responseData | ] eqn:Hp;
      [ | discriminate ].
    rewrite (fetchJobs_success_run body page st responseData Hp). cbn.
    destruct (page =? 1)%Z; cbn; [ repeat split; auto | ].
    destruct (spread (jobs st)) as [ e | prev ]; cbn;
      [ repeat split; auto | ].
    destruct (spread (fallback_chain responseData)); repeat split; auto.
Qed.

(** What the chain extracts is not checked to be a list.  On page 1 it
    becomes the listing as it is; on a later page, if it cannot be
    spread, the listing stays as it was and the updater's throw surfaces
    at render, while the page counter has moved on and no error message
    is set. *)
Theorem fetchJobs_unchecked_extraction
    (body : string) (page : Z) (st : app) (responseData : value) :
  JSON_parse body = Some responseData ->
  (page = 1%Z ->
   jobs (snd (fetchJobs (Response true body) page st))
   = fallback_chain responseData) /\
  (page <> 1%Z ->
   spread (fallback_chain responseData) = inl TypeError ->
   jobs (snd (fetchJobs (Response true body) page st)) = jobs st /\
   render_error (snd (fetchJobs (Response true body) page st)) = true /\
   currentPage (snd (fetchJobs (Response true body) page st)) = page /\
   error (snd (fetchJobs (Response true body) page st)) = None).
Proof.
  intros Hp. rewrite (fetchJobs_success_run body page st responseData Hp).
  split.
  - intros ->. reflexivity.
  - intros Hpage Hspread. apply Z.eqb_neq in Hpage. cbn. rewrite Hpage.
    rewrite Hspread.
    destruct (spread (jobs st)); cbn; repeat split.
Qed.

(** In an object body, a [results] list is taken even when it is empty
    and [jobs] or [data] hold records; and when each of the three fields
    is a list or is missing, what is extracted is a list. *)
Theorem jobsArray_of_object (fields : list (string * value)) :
  (forall results,
      field "results" fields = VArray results ->
      jobsArray_of (VObject fields) = inr (VArray results)) /\
  (array_or_absent (field "results" fields) = true ->
   array_or_absent (field "jobs" fields) = true ->
   array_or_absent (field "data" fields) = true ->
   exists extracted, jobsArray_of (VObject fields) = inr (VArray extracted)).
Proof.
  rewrite jobsArray_of_chain. cbn. split.
  - intros results ->. reflexivity.
  - intros Hr Hj Hd.
    destruct (field "results" fields); try discriminate; cbn; eauto;
      destruct (field "jobs" fields); try discriminate; cbn; eauto;
      destruct (field "data" fields); try discriminate; cbn; eauto.
Qed.

(** [loadMoreJobs] does nothing while a load is in flight; otherwise a
    successful reply appends to the listing and moves the page counter
    on by one, leaving [loading] false for the next call. *)
Theorem loadMoreJobs_next_page :
  (forall (reply : http_reply) (st : app),
      loading st = true -> loadMoreJobs reply st = (Returned tt, st)) /\
  (forall (body : string) (st : app) (responseData : value)
          (previous extracted : list value),
      loading st = false ->
      currentPage st <> 0%Z ->
      JSON_parse body = Some responseData ->
      fallback_chain responseData = VArray extracted ->
      jobs st = VArray previous ->
      exists st',
        loadMoreJobs (Response true body) st = (Returned tt, st') /\
        jobs st' = VArray (previous ++ extracted) /\
        currentPage st' = (currentPage st + 1)%Z /\
        loading st' = false) /\
  (forall (reply : http_reply) (st : app),
      loading st = false ->
      fetch_fails reply = true ->
      exists st',
        loadMoreJobs reply st = (Returned tt, st') /\
        jobs st' = jobs st /\
        currentPage st' = currentPage st /\
        error st' = Some fetch_error).
Proof.
  split; [ | split ].
  - intros reply st Hloading. unfold loadMoreJobs. rewrite Hloading.
    reflexivity.
  - intros body st responseData previous extracted Hloading Hpage Hp Hx Hjobs.
    unfold loadMoreJobs. rewrite Hloading. cbn [negb].
    rewrite (fetchJobs_success_run body _ st responseData Hp).
    assert (Hnext : (currentPage st + 1 =? 1)%Z = false)
      by (apply Z.eqb_neq; lia).
    cbn. rewrite Hnext, Hx, Hjobs. cbn.
    eexists. split; [ reflexivity | ]. repeat split.
  - intros reply st Hloading Hfail.
    unfold loadMoreJobs. rewrite Hloading. cbn [negb].
    rewrite (fetchJobs_failure_run reply _ st Hfail).
    eexists. split; [ reflexivity | ]. repeat split.
Qed.

(** ** Properties of the screens *)

Lemma truthy_has_properties (v : value) :
  truthy v = true -> has_properties v = true.
Proof. destruct v; cbn; congruence. Qed.

(** *** getFieldTextValue *)

Lemma getFieldTextValue_closed_form
    (job shown : value) (primaryDetailsField : string) :
  has_properties job = true ->
  getFieldTextValue job shown primaryDetailsField
  = inr (if numeric shown && truthy (detail job primaryDetailsField)
         then detail job primaryDetailsField
         else shown).
Proof.
  intros Hjob. unfold getFieldTextValue, detail, numeric.
  destruct (String.eqb (typeof shown) "number"); cbn; [ | reflexivity ].
  rewrite (prop_top job "primary_details" Hjob). cbn.
  destruct (truthy (top job "primary_details")) eqn:Hpd; [ | reflexivity ].
  rewrite (prop_top _ primaryDetailsField (truthy_has_properties _ Hpd)).
  cbn. destruct (truthy (top (top job "primary_details") primaryDetailsField));
    reflexivity.
Qed.

(** The card and the details screen show, for experience, job type and
    qualification, the very values [saveBookmarks] persists; and they
    show the same for the persisted record as for the job it came from. *)
Theorem getFieldTextValue_agrees_with_projection (job record : value) :
  essential job = inr record ->
  (getFieldTextValue job (top job "experience") "Experience"
   = inr (top record "experience") /\
   getFieldTextValue job (top job "job_type") "Job_Type"
   = inr (top record "job_type") /\
   getFieldTextValue job (top job "qualification") "Qualification"
   = inr (top record "qualification")) /\
  (getFieldTextValue record (top record "experience") "Experience"
   = inr (top record "experience") /\
   getFieldTextValue record (top record "job_type") "Job_Type"
   = inr (top record "job_type") /\
   getFieldTextValue record (top record "qualification") "Qualification"
   = inr (top record "qualification")).
Proof.
  intros H. apply essential_inr in H as [Hjob ->].
  split.
  - rewrite !(getFieldTextValue_closed_form job _ _ Hjob). repeat split.
  - rewrite !getFieldTextValue_closed_form by reflexivity.
    assert (Hdetail : forall d,
              detail (essential_record job) d = detail job d)
      by reflexivity.
    rewrite !Hdetail.
    change (top (essential_record job) "experience")
      with (resolve job "experience" "Experience").
    change (top (essential_record job) "job_type")
      with (resolve job "job_type" "Job_Type").
    change (top (essential_record job) "qualification")
      with (resolve job "qualification" "Qualification").
    rewrite !resolve_stable. repeat split.
Qed.

(** *** The salary texts *)

Lemma salary_test (pd : value) :
  (if truthy pd
   then let? s := prop pd "Salary" in inr (truthy s)
   else inr false)
  = (inr (truthy pd && truthy (top pd "Salary")) : exn + bool).
Proof.
  destruct (truthy pd) eqn:Hpd; [ | reflexivity ].
  rewrite (prop_top _ "Salary" (truthy_has_properties _ Hpd)). reflexivity.
Qed.

Lemma truthy_detail (job : value) (k : string) :
  truthy (top job "primary_details")
  && truthy (top (top job "primary_details") k)
  = truthy (detail job k).
Proof.
  unfold detail. destruct (truthy (top job "primary_details")); reflexivity.
Qed.

Lemma rupee_not_dash (s : string) :
  VString (rupee ++ s)%string <> VString "-".
Proof. unfold rupee. cbn. discriminate. Qed.

(** The details screen never shows the placeholder dash as a salary:
    for a job whose properties can be read [formatSalaryRange] returns,
    and what it returns is not the text "-". *)
Theorem formatSalaryRange_never_dash (job : value) :
  has_properties job = true ->
  exists shown,
    formatSalaryRange job = inr shown /\ shown <> VString "-".
Proof.
  intros Hjob. unfold formatSalaryRange.
  rewrite !(prop_top job _ Hjob). cbn [and_then].
  rewrite salary_test. cbn [and_then].
  destruct (truthy (top job "primary_details")
            && truthy (top (top job "primary_details") "Salary")) eqn:Hpd.
  - apply andb_prop in Hpd as [Hpd _].
    rewrite (prop_top _ "Salary" (truthy_has_properties _ Hpd)).
    cbn [and_then].
    destruct (strict_eq _ (VString "-")) eqn:Hdash.
    + eexists. split; [ reflexivity | discriminate ].
    + eexists. split; [ reflexivity | ].
      exact (strict_eq_false _ (VString "-") eq_refl Hdash).
  - destruct (_ || _); [ eexists; split; [ reflexivity | discriminate ] | ].
    destruct (truthy (top job "salary_min") && truthy (top job "salary_max"));
      [ eexists; split; [ reflexivity | apply rupee_not_dash ] | ].
    destruct (truthy (top job "salary_min"));
      [ eexists; split; [ reflexivity | apply rupee_not_dash ] | ].
    destruct (truthy (top job "salary_max"));
      [ eexists; split; [ reflexivity | discriminate ] | ].
    destruct (truthy (top job "fee_details")
              && negb (strict_eq (top job "fee_details") (VString "-")))
      eqn:Hfee; [ | eexists; split; [ reflexivity | discriminate ] ].
    eexists. split; [ reflexivity | ].
    apply andb_prop in Hfee as [_ Hfee]. apply negb_true_iff in Hfee.
    exact (strict_eq_false _ (VString "-") eq_refl Hfee).
Qed.

(** On the card the salary range is looked at only after [fee_details]:
    without a truthy [primary_details.Salary], a job whose [fee_details]
    is missing, empty, "V3:[]" or "-" reads "Not Mentioned" whatever its
    [salary_min] and [salary_max]; the row that shows it is there as
    soon as one of the two is set. *)
Theorem getSalaryDisplay_needs_fee_details (job : value) :
  has_properties job = true ->
  truthy (detail job "Salary") = false ->
  isSalaryEmpty (top job "fee_details")
  || strict_eq (top job "fee_details") (VString "-") = true ->
  getSalaryDisplay job = inr (VString "Not Mentioned") /\
  (truthy (top job "salary_min") || truthy (top job "salary_max") = true ->
   salary_row job = inr (Some (VString "Not Mentioned"))).
Proof.
  intros Hjob Hsalary Hfee.
  assert (Hshown : getSalaryDisplay job = inr (VString "Not Mentioned")).
  { unfold getSalaryDisplay.
    rewrite !(prop_top job _ Hjob). cbn [and_then].
    rewrite salary_test, truthy_detail, Hsalary. cbn [and_then].
    rewrite Hfee. reflexivity. }
  split; [ exact Hshown | ].
  intros Hrange. unfold salary_row.
  rewrite !(prop_top job _ Hjob). cbn [and_then]. rewrite Hshown.
  assert (Hrow : forall s,
            truthy (js_or (js_or (js_or s (top job "salary_min"))
                                 (top job "salary_max"))
                          (top job "fee_details")) = true).
  { intros s. unfold js_or.
    destruct (truthy s) eqn:Hs; rewrite ?Hs;
      destruct (truthy (top job "salary_min")) eqn:Hmin; rewrite ?Hs, ?Hmin;
      destruct (truthy (top job "salary_max")) eqn:Hmax;
      rewrite ?Hs, ?Hmin, ?Hmax; try reflexivity.
    all: discriminate. }
  destruct (top job "primary_details"); cbn [and_then prop];
    rewrite Hrow; reflexivity.
Qed.

(** [fee_details] is not among the persisted fields, so the card of a
    persisted record without a truthy [primary_details.Salary] reads
    "Not Mentioned", whatever the job carried. *)
Theorem getSalaryDisplay_of_projected (job record : value) :
  essential job = inr record ->
  truthy (detail job "Salary") = false ->
  getSalaryDisplay record = inr (VString "Not Mentioned").
Proof.
  intros H Hsalary. apply essential_inr in H as [_ ->].
  apply getSalaryDisplay_needs_fee_details; [ reflexivity | exact Hsalary | ].
  reflexivity.
Qed.

(** *** safeToString *)

Lemma strip_braces_quotes_clean (s : string) (c : ascii) :
  In c (String.list_ascii_of_string (strip_braces_quotes s)) ->
  brace_or_quote c = false.
Proof.
  induction s as [ | c' rest IH ]; cbn; [ intros [] | ].
  destruct (brace_or_quote c') eqn:Hc'; cbn; [ exact IH | ].
  intros [<- | Hin]; [ exact Hc' | exact (IH Hin) ].
Qed.

Lemma space_commas_chars (s : string) (c : ascii) :
  In c (String.list_ascii_of_string (space_commas s)) ->
  In c (String.list_ascii_of_string s) \/ c = " "%char.
Proof.
  induction s as [ | c' rest IH ]; cbn; [ intros [] | ].
  destruct (Ascii.eqb_spec c' ","%char) as [-> | Hc']; cbn.
  - intros [<- | [<- | Hin]]; auto. destruct (IH Hin); auto.
  - intros [<- | Hin]; auto. destruct (IH Hin); auto.
Qed.

(** Whatever [JSON.stringify] produces for a list or an object, the text
    the card shows for it holds no brace and no double quote. *)
Theorem safeToString_drops_braces_and_quotes (v : value) (c : ascii) :
  primitive v = false ->
  In c (String.list_ascii_of_string (safeToString v)) ->
  brace_or_quote c = false.
Proof.
  intros Hv Hin.
  assert (Hshape : safeToString v
                   = space_commas (strip_braces_quotes (JSON_stringify v)))
    by (destruct v; try discriminate; reflexivity).
  rewrite Hshape in Hin.
  apply space_commas_chars in Hin as [Hin | ->]; [ | reflexivity ].
  exact (strip_braces_quotes_clean _ _ Hin).
Qed.

(** *** Which view the screens take *)

(** A failed fetch shows on both screens through the shared error slot:
    the Bookmarks screen gives way to the error view whatever the
    bookmarks are, while the Jobs screen shows the error only over an
    empty listing and keeps showing a listing it has. *)
Theorem fetch_error_on_the_screens
    (reply : http_reply) (page : Z) (st : app) :
  fetch_fails reply = true ->
  BookmarksScreen (snd (fetchJobs reply page st)) = inr (ErrorView fetch_error)
  /\
  (forall first rest,
      jobs st = VArray (first :: rest) ->
      JobsScreen (snd (fetchJobs reply page st)) = inr (ListView (jobs st)))
  /\
  (jobs st = VArray [] ->
   JobsScreen (snd (fetchJobs reply page st)) = inr (ErrorView fetch_error)).
Proof.
  intros Hfail. rewrite (fetchJobs_failure_run reply page st Hfail).
  split; [ reflexivity | ]. split.
  - intros first rest Hjobs. unfold JobsScreen. cbn. rewrite Hjobs. reflexivity.
  - intros Hjobs. unfold JobsScreen. cbn. rewrite Hjobs. reflexivity.
Qed.

(** After the load at start-up, with no error shown: nothing stored
    gives the empty view; a stored bundle gives the list view with the
    bundle object as its data, even when the bundle holds no job. *)
Theorem BookmarksScreen_after_load (st : app) :
  next_call_ok st ->
  error_shown (error st) = false ->
  (has_text (storage st !! primary_key) = false ->
   bookmarks st = VArray [] ->
   BookmarksScreen (snd (loadBookmarks 0 st)) = inr EmptyView) /\
  (forall text timestamp records,
      storage st !! primary_key = Some text ->
      text <> EmptyString ->
      JSON_parse text = Some (bookmarksData timestamp records) ->
      BookmarksScreen (snd (loadBookmarks 0 st))
      = inr (ListView (bookmarksData timestamp records))).
Proof.
  unfold next_call_ok. intros Hok Herror. split.
  - intros Hnone Hcell.
    unfold loadBookmarks. cbn [loadBookmarks_fuel].
    unfold loadBookmarks_body. unfold_ops. cbn.
    rewrite Hok. cbn. rewrite Hnone. cbn.
    unfold BookmarksScreen. cbn. rewrite Herror, Hcell. reflexivity.
  - intros text timestamp records Hs Hne Hp. apply has_text_Some in Hne.
    unfold loadBookmarks. cbn [loadBookmarks_fuel].
    unfold loadBookmarks_body. unfold_ops. cbn.
    rewrite Hok, Hs, Hne. cbn. rewrite Hp. cbn.
    unfold BookmarksScreen. cbn. rewrite Herror. reflexivity.
Qed.

(** *** JobsScreen, its own state *)

Lemma jobs_screen_step_keeps (ev : jobs_screen_event)
    (s : jobs_screen) (st : app) :
  page (fst (jobs_screen_step ev (s, st))) = page s /\
  (hasMore s = true -> hasMore (fst (jobs_screen_step ev (s, st))) = true) /\
  (refreshing s = true ->
   refreshing (fst (jobs_screen_step ev (s, st))) = true) /\
  (forall reply, ev = Pulled reply ->
                 refreshing (fst (jobs_screen_step ev (s, st))) = true).
Proof.
  destruct ev; cbn; repeat split; auto; discriminate.
Qed.

Lemma jobs_screen_step_page (ev : jobs_screen_event)
    (s : jobs_screen) (st : app) :
  page s = 1%Z ->
  currentPage (snd (jobs_screen_step ev (s, st))) = currentPage st \/
  currentPage (snd (jobs_screen_step ev (s, st))) = 1%Z \/
  currentPage (snd (jobs_screen_step ev (s, st))) = 2%Z.
Proof.
  intros Hpage. destruct ev as [ reply | reply | reply | connected ]; cbn.
  - unfold handleLoadMore. rewrite Hpage.
    destruct (negb (loading st) && hasMore s); cbn; [ | auto ].
    destruct (fetchJobs_frame reply (1 + 1) st) as (_ & _ & _ & _ & [H | H]);
      rewrite H; auto.
  - destruct (fetchJobs_frame reply 1 st) as (_ & _ & _ & _ & [H | H]);
      rewrite H; auto.
  - destruct (fetchJobs_frame reply 1 st) as (_ & _ & _ & _ & [H | H]);
      rewrite H; auto.
  - auto.
Qed.

(** [setPage] is never called: through any sequence of what can happen
    to the screen, its [page] stays 1, every load-more asks for page 2,
    and the provider's page counter never gets past 2. *)
Theorem jobs_screen_never_past_page_2
    (events : list jobs_screen_event) (s : jobs_screen) (st : app) :
  page s = 1%Z ->
  currentPage st = 1%Z \/ currentPage st = 2%Z ->
  page (fst (jobs_screen_run events (s, st))) = 1%Z /\
  (currentPage (snd (jobs_screen_run events (s, st))) = 1%Z \/
   currentPage (snd (jobs_screen_run events (s, st))) = 2%Z).
Proof.
  revert s st. unfold jobs_screen_run.
  induction events as [ | ev rest IH ]; intros s st Hpage Hcurrent;
    cbn [fold_left].
  - auto.
  - destruct (jobs_screen_step ev (s, st)) as [s1 st1] eqn:Hstep.
    apply IH.
    + pose proof (jobs_screen_step_keeps ev s st) as (Hp & _).
      rewrite Hstep in Hp. cbn in Hp. congruence.
    + pose proof (jobs_screen_step_page ev s st Hpage) as Hc.
      rewrite Hstep in Hc. cbn in Hc.
      destruct Hc as [Hc | [Hc | Hc]]; rewrite Hc; auto.
Qed.

(** [setRefreshing(false)] is never called: once the list has been
    pulled, [refreshing] stays true through whatever follows. *)
Theorem refreshing_is_never_cleared
    (events : list jobs_screen_event) (s : jobs_screen) (st : app) :
  refreshing s = true \/ (exists reply, In (Pulled reply) events) ->
  refreshing (fst (jobs_screen_run events (s, st))) = true.
Proof.
  revert s st. unfold jobs_screen_run.
  induction events as [ | ev rest IH ]; intros s st Hpulled;
    cbn [fold_left].
  - destruct Hpulled as [H | (reply & [])]. exact H.
  - destruct (jobs_screen_step ev (s, st)) as [s1 st1] eqn:Hstep.
    apply IH.
    pose proof (jobs_screen_step_keeps ev s st) as (_ & _ & Hkeep & Hpull).
    rewrite Hstep in Hkeep, Hpull. cbn in Hkeep, Hpull.
    destruct Hpulled as [H | (reply & [-> | Hin])].
    + left. exact (Hkeep H).
    + left. exact (Hpull reply eq_refl).
    + right. exists reply. exact Hin.
Qed.

(** *** What a persisted record no longer shows, and what it still does *)

(** The card's location text comes from [job_location_slug] alone, and
    that field is not persisted: the card of a persisted record reads
    "Location not specified" whatever the job carried, [locality] and
    [city_location] included. *)
Theorem formatJobLocation_of_projected (job record : value) :
  essential job = inr record ->
  formatJobLocation record = inr "Location not specified" /\
  formatJobLocation job
  = inr (if truthy (top job "job_location_slug")
         then join ", " [top job "job_location_slug"]
         else "Location not specified").
Proof.
  intros H. apply essential_inr in H as [Hjob ->].
  split; [ reflexivity | ].
  unfold formatJobLocation. rewrite (prop_top job _ Hjob). cbn.
  destruct (truthy (top job "job_location_slug")); reflexivity.
Qed.

(** *** getContentV3FieldValue *)

Lemma find_field_key_spec (fieldKey : value) (items : list value) :
  all_records items ->
  primitive fieldKey = true ->
  exists found,
    find_field_key fieldKey items = inr found /\
    ((forall item, In item items -> top item "field_key" <> fieldKey) ->
     found = VUndefined) /\
    (found = VUndefined \/
     In found items /\ top found "field_key" = fieldKey).
Proof.
  intros Hitems Hkey.
  induction Hitems as [ | item rest Hitem _ IH ]; cbn.
  - exists VUndefined. repeat split; auto.
  - rewrite (prop_top item "field_key" Hitem). cbn.
    destruct (strict_eq (top item "field_key") fieldKey) eqn:Heq.
    + exists item. split; [ reflexivity | ].
      apply strict_eq_true in Heq. split.
      * intros Hnone. exfalso. apply (Hnone item); auto.
      * right. auto.
    + destruct IH as (found & Hfind & Hnone & Hsome).
      exists found. split; [ exact Hfind | ]. split.
      * intros Hall. apply Hnone. intros it Hin. apply Hall. right. exact Hin.
      * destruct Hsome as [-> | [Hin Hk]]; auto.
Qed.

(** Over a [contentV3.V3] list of readable items the lookup returns
    normally: [null] when no item carries the key, and otherwise
    [null] or the [field_value] of an item of the list that carries it. *)
Theorem getContentV3FieldValue_lookup
    (job fieldKey : value) (items : list value) :
  has_properties job = true ->
  truthy (top job "contentV3") = true ->
  top (top job "contentV3") "V3" = VArray items ->
  all_records items ->
  primitive fieldKey = true ->
  exists shown,
    getContentV3FieldValue job fieldKey = inr shown /\
    ((forall item, In item items -> top item "field_key" <> fieldKey) ->
     shown = VNull) /\
    (shown = VNull \/
     exists item,
       In item items /\ top item "field_key" = fieldKey /\
       shown = top item "field_value").
Proof.
  intros Hjob Hcontent HV3 Hitems Hkey.
  unfold getContentV3FieldValue.
  rewrite (prop_top job _ Hjob). cbn [and_then]. rewrite Hcontent.
  rewrite (prop_top _ "V3" (truthy_has_properties _ Hcontent)).
  cbn [and_then]. rewrite HV3.
  destruct (find_field_key_spec fieldKey items Hitems Hkey)
    as (found & -> & Hnone & Hsome).
  cbn [and_then].
  destruct (truthy found) eqn:Hfound.
  - rewrite (prop_top _ "field_value" (truthy_has_properties _ Hfound)).
    eexists. split; [ reflexivity | ].
    destruct Hsome as [-> | [Hin Hk]]; [ discriminate | ].
    split.
    + intros Hall. exfalso. exact (Hall found Hin Hk).
    + right. exists found. auto.
  - eexists. split; [ reflexivity | ]. split; auto.
Qed.

End Provider.

(** ** The theorems at work on concrete runs *)

Lemma loadBookmarks_stores_whole_bundle_witness :
  fst (loadBookmarks read_json 0 (mounted store_saved [])) = Returned tt /\
  bookmarks (snd (loadBookmarks read_json 0 (mounted store_saved [])))
  = bookmarksData stamp [job1] /\
  bookmarks (snd (loadBookmarks read_json 0 (mounted store_saved [])))
  <> VArray [job1].
Proof.
  apply (loadBookmarks_stores_whole_bundle
           read_json (mounted store_saved []) saved_text stamp [job1]).
  - vm_compute. reflexivity.
  - discriminate.
  - reflexivity.
  - vm_compute. reflexivity.
Defined.

Lemma loadBookmarks_repairs_once_witness :
  exists (st' : app) (steps : list event),
    loadBookmarks read_json 0 (mounted store_corrupt []) = (Returned tt, st') /\
    trace st' = trace (mounted store_corrupt []) ++ steps /\
    count is_repair_line steps = 1 /\
    count is_removal steps = 1 /\
    count is_read steps <= 2 /\
    bookmarks st' = bookmarks (mounted store_corrupt []) /\
    (bookmarks (mounted store_corrupt []) = VArray [] ->
     bookmarks st' = VArray []) /\
    loading st' = false /\
    (repair_fails (mounted store_corrupt []) = true ->
       error st' = Some "Failed to load saved jobs") /\
    (repair_fails (mounted store_corrupt []) = false ->
       count is_read steps = 2 /\
       storage st' !! primary_key = None /\
       error st' = error (mounted store_corrupt [])).
Proof.
  apply (loadBookmarks_repairs_once
           read_json (mounted store_corrupt []) "{oops").
  - vm_compute. reflexivity.
  - discriminate.
  - vm_compute. reflexivity.
  - reflexivity.
Defined.

Lemma fetchJobs_replaces_or_appends_witness :
  jobs (snd (fetchJobs read_json (Response true page_text) 1 listing5))
  = VArray [job1] /\
  jobs (snd (fetchJobs read_json (Response true page_text) 2 listing5))
  = VArray ([job5] ++ [job1]) /\
  currentPage (snd (fetchJobs read_json (Response true page_text) 2 listing5))
  = 2%Z /\
  currentPage (snd (fetchJobs read_json (Response false page_text) 2 listing5))
  = currentPage listing5.
Proof.
  pose proof (proj1 (fetchJobs_replaces_or_appends read_json)) as Hsuccess.
  pose proof (proj2 (fetchJobs_replaces_or_appends read_json)) as Hfailure.
  assert (Hparse : read_json page_text
                   = Some (VObject [ ("results", VArray [job1]) ]))
    by (vm_compute; reflexivity).
  assert (Hchain : fallback_chain (VObject [ ("results", VArray [job1]) ])
                   = VArray [job1]) by reflexivity.
  assert (Hlisting : jobs listing5 = VArray [job5]) by reflexivity.
  destruct (Hsuccess listing5 page_text 1%Z _ [job5] [job1]
              Hparse Hchain Hlisting) as (_ & _ & Hfirst & _).
  destruct (Hsuccess listing5 page_text 2%Z _ [job5] [job1]
              Hparse Hchain Hlisting) as (_ & _ & _ & Hnext & Hpage & _).
  split; [ apply Hfirst; reflexivity | ].
  split; [ apply Hnext; discriminate | ].
  split; [ exact Hpage | ].
  apply Hfailure. reflexivity.
Defined.

Lemma fetchJobs_failure_and_error_slot_witness :
  (error (snd (fetchJobs read_json (Response false page_text) 1 listing5))
   = Some fetch_error /\
   jobs (snd (fetchJobs read_json (Response false page_text) 1 listing5))
   = jobs listing5 /\
   loading (snd (fetchJobs read_json (Response false page_text) 1 listing5))
   = false) /\
  error (snd (fetchJobs read_json (Response true page_text) 1
                (set_error (Some fetch_error) listing5)))
  = None.
Proof.
  pose proof (proj1 (fetchJobs_failure_and_error_slot read_json)) as Hfailure.
  pose proof (proj2 (fetchJobs_failure_and_error_slot read_json)) as Hsuccess.
  split.
  - destruct (Hfailure listing5 (Response false page_text) 1%Z eq_refl)
      as (_ & He & Hj & Hl).
    repeat split; assumption.
  - assert (Hok : fetch_fails read_json (Response true page_text) = false)
      by (vm_compute; reflexivity).
    destruct (Hsuccess (set_error (Some fetch_error) listing5)
                (Response true page_text) 1%Z Hok) as (_ & He & _).
    exact He.
Defined.

Lemma saveBookmarks_persists_whitelisted_witness :
  exists (items records : list value),
    VArray [job5] = VArray items /\
    map_throwing essential items = inr records /\
    length records = length items /\
    saved_text5 = print_json (bookmarksData stamp records) /\
    Forall (fun record => own_keys record = whitelist) records /\
    (forall record k,
        In record records -> In k (own_keys record) -> In k whitelist).
Proof.
  apply (saveBookmarks_persists_whitelisted
           print_json stamp (mounted ∅ []) (VArray [job5])
           primary_key saved_text5).
  - vm_compute. reflexivity.
  - vm_compute. discriminate.
Defined.

Lemma essential_resolves_by_truthiness_witness :
  top (essential_record job5) "experience" = VString "2-4 yrs" /\
  top (essential_record job5) "job_type" = VUndefined /\
  top (essential_record job5) "qualification" = VUndefined /\
  top (essential_record job5) "salary" = VUndefined.
Proof.
  apply (essential_resolves_by_truthiness job5 (essential_record job5)).
  reflexivity.
Defined.

(** C5 as stated does not hold: with the test "the detail field exists",
    a job whose [primary_details] carries blank [Experience] and [Salary]
    would be persisted with the blanks, while the code keeps the top-level
    experience [3] and salary. *)
Lemma resolution_if_present_fails :
  ~ (forall job record : value,
        essential job = inr record ->
        top record "experience"
        = resolve_if_present job "experience" "Experience" /\
        top record "job_type"
        = resolve_if_present job "job_type" "Job_Type" /\
        top record "qualification"
        = resolve_if_present job "qualification" "Qualification" /\
        top record "salary" = resolve_salary_if_present job).
Proof.
  intros Hclaim.
  destruct (Hclaim job_blank (essential_record job_blank) eq_refl)
    as (Hexperience & _).
  vm_compute in Hexperience. discriminate Hexperience.
Qed.

Lemma toggleBookmark_twice_restores_ids_witness :
  exists (st1 st2 : app) (items2 : list value),
    toggleBookmark print_json stamp "ios" job5 marked1 = (Returned tt, st1) /\
    toggleBookmark print_json stamp "ios" job5 st1 = (Returned tt, st2) /\
    bookmarks st2 = VArray items2 /\
    (forall x, In x (ids items2) <-> In x (ids [job1])) /\
    (has_id (id_of job5) [job1] = false -> items2 = [job1]) /\
    render_error st2 = render_error marked1.
Proof.
  apply (toggleBookmark_twice_restores_ids
           print_json stamp "ios" marked1 [job1] job5 job5).
  - reflexivity.
  - repeat constructor.
  - reflexivity.
  - reflexivity.
  - reflexivity.
  - reflexivity.
Defined.

Lemma membership_is_strict_equality_witness :
  (exists b : bool,
      isBookmarked (VArray [job1]) (VNumber 1) = inr b /\
      (b = true <-> exists record, In record [job1] /\ id_of record = VNumber 1))
  /\
  (exists (st' : app) (kept : list value),
      toggleBookmark print_json stamp "ios" job1 marked1 = (Returned tt, st') /\
      bookmarks st' = VArray kept /\
      (forall record,
          In record kept <-> In record [job1] /\ id_of record <> id_of job1))
  /\
  isBookmarked (VArray [VObject [("id", VNumber 5)]]) (VString "5") = inr false.
Proof.
  destruct (membership_is_strict_equality print_json stamp "ios")
    as (Hquery & Hremove & Htypes).
  split; [ | split ].
  - apply Hquery; [ repeat constructor | reflexivity ].
  - apply (Hremove marked1 [job1] job1);
      [ reflexivity | repeat constructor | reflexivity | reflexivity
      | reflexivity ].
  - apply (Htypes 5%Z "5").
Defined.

Lemma clearBookmarks_deletes_primary_only_witness :
  storage (snd (clearBookmarks "ios" PressClearAll marked1)) !! backup_key
  = Some saved_text /\
  storage (snd (clearBookmarks "ios" PressClearAll marked1)) !! primary_key
  = None /\
  bookmarks (snd (clearBookmarks "ios" PressClearAll marked1)) = VArray [] /\
  storage (snd (clearBookmarks "ios" PressCancel marked1)) = store_both /\
  bookmarks (snd (clearBookmarks "ios" PressCancel marked1)) = VArray [job1].
Proof.
  destruct (clearBookmarks_deletes_primary_only "ios") as (Hclear & Hcancel).
  destruct (Hclear marked1) as (_ & Hbackup & _ & Hdone).
  destruct (Hdone eq_refl) as (_ & Hprimary & Hcell).
  destruct (Hcancel marked1) as (_ & Hstore & Hkept).
  split; [ rewrite Hbackup; vm_compute; reflexivity | ].
  split; [ exact Hprimary | ].
  split; [ exact Hcell | ].
  split; [ exact Hstore | exact Hkept ].
Defined.

Lemma verifyAndRepairBookmarks_cases_witness :
  exists (result : value) (st' : app),
    verifyAndRepairBookmarks read_json (mounted store_backup_only [])
    = (Returned result, st') /\
    storage st' !! primary_key = Some saved_text /\
    storage st' !! backup_key = Some saved_text /\
    result = saved_bundle.
Proof.
  assert (Hempty : read_json EmptyString = None) by reflexivity.
  assert (Hok : calls_ok 3 (mounted store_backup_only [])) by reflexivity.
  destruct (verifyAndRepairBookmarks_cases
              read_json (mounted store_backup_only []) Hempty Hok)
    as (result & st' & Hrun & Hrestore & _).
  assert (Hmain : storage (mounted store_backup_only []) !! primary_key = None)
    by (vm_compute; reflexivity).
  assert (Hbackup : storage (mounted store_backup_only []) !! backup_key
                    = Some saved_text) by (vm_compute; reflexivity).
  assert (Hne : saved_text <> EmptyString) by discriminate.
  destruct (Hrestore saved_text Hmain Hbackup Hne) as (Hp & Hb & Hresult).
  exists result, st'.
  split; [ exact Hrun | ]. split; [ exact Hp | ]. split; [ exact Hb | ].
  apply Hresult. vm_compute. reflexivity.
Defined.

(** Two toggles fired from one and the same render both see the job as
    absent: [isBookmarked] reads the rendered list, not the cell. *)
Example toggleBookmark_from_one_render :
  bookmarks
    (snd (toggleBookmark_from print_json stamp "ios" (VArray [job1]) job5
            (snd (toggleBookmark_from print_json stamp "ios" (VArray [job1])
                    job5 marked1))))
  = VArray [job1; job5; job5].
Proof. vm_compute. reflexivity. Qed.

(** The scenario of a corrupt primary text with a sound backup: the load
    ends with no bookmarks and the primary key gone, and a later
    [verifyAndRepairBookmarks] copies the backup back and returns it. *)
Example corrupt_primary_then_repair :
  bookmarks (snd (loadBookmarks read_json 0 (mounted store_corrupt [])))
  = VArray [] /\
  storage (snd (loadBookmarks read_json 0 (mounted store_corrupt [])))
    !! primary_key = None /\
  fst (verifyAndRepairBookmarks read_json
         (snd (loadBookmarks read_json 0 (mounted store_corrupt []))))
  = Returned saved_bundle /\
  storage (snd (verifyAndRepairBookmarks read_json
                  (snd (loadBookmarks read_json 0 (mounted store_corrupt [])))))
    !! primary_key = Some saved_text.
Proof. vm_compute. repeat split. Qed.

(** The scenario of toggling a job whose experience is a numeric code:
    what reaches the store carries the resolved text and none of the
    fields outside the essential set. *)
Example toggle_persists_resolved_experience :
  storage (snd (toggleBookmark print_json stamp "ios" job5 (mounted ∅ [])))
    !! primary_key = Some saved_text5 /\
  storage (snd (toggleBookmark print_json stamp "ios" job5 (mounted ∅ [])))
    !! backup_key = Some saved_text5.
Proof. vm_compute. repeat split. Qed.

Lemma verifyAndRepairBookmarks_returns_whole_bundle_witness :
  exists st',
    verifyAndRepairBookmarks read_json (mounted store_backup_only [])
    = (Returned (bookmarksData stamp [job1]), st') /\
    storage st' !! primary_key = Some saved_text /\
    bookmarksData stamp [job1] <> VArray [job1] /\
    Array_isArray (bookmarksData stamp [job1]) = false.
Proof.
  apply (verifyAndRepairBookmarks_returns_whole_bundle
           read_json (mounted store_backup_only []) saved_text stamp [job1]).
  - reflexivity.
  - reflexivity.
  - vm_compute. reflexivity.
  - left. split; vm_compute; reflexivity.
Defined.

(** ** The further properties at work *)

Lemma loadBookmarks_nothing_stored_witness :
  exists st',
    loadBookmarks read_json 0 (mounted ∅ []) = (Returned tt, st') /\
    bookmarks st' = bookmarks (mounted ∅ []) /\
    error st' = error (mounted ∅ []) /\
    storage st' = storage (mounted ∅ []) /\
    loading st' = false /\
    trace st' = trace (mounted ∅ []) ++ [GetItem primary_key].
Proof.
  apply (loadBookmarks_nothing_stored read_json 0 (mounted ∅ []));
    reflexivity.
Defined.

Lemma loadBookmarks_read_rejection_deletes_witness :
  exists st',
    loadBookmarks read_json 0 (mounted store_saved [true]) = (Returned tt, st') /\
    storage st' = delete primary_key (storage (mounted store_saved [true])) /\
    bookmarks st' = bookmarks (mounted store_saved [true]) /\
    count is_removal
      (skipn (length (trace (mounted store_saved [true]))) (trace st')) = 1 /\
    (hd false (tail (tail (faults (mounted store_saved [true])))) = false ->
     error st' = error (mounted store_saved [true])) /\
    (hd false (tail (tail (faults (mounted store_saved [true])))) = true ->
     error st' = Some "Failed to load saved jobs").
Proof.
  apply (loadBookmarks_read_rejection_deletes
           read_json (mounted store_saved [true])); reflexivity.
Defined.

Lemma saveBookmarks_writes_both_keys_witness :
  exists st',
    saveBookmarks print_json stamp (VArray [job5]) (mounted ∅ [])
    = (Returned tt, st') /\
    storage st' !! primary_key
    = Some (print_json (bookmarksData stamp (map essential_record [job5]))) /\
    storage st' !! backup_key = storage st' !! primary_key /\
    (forall key, key <> primary_key -> key <> backup_key ->
                 storage st' !! key = storage (mounted ∅ []) !! key) /\
    error st' = error (mounted ∅ []) /\
    bookmarks st' = bookmarks (mounted ∅ []).
Proof.
  apply (saveBookmarks_writes_both_keys print_json stamp [job5] (mounted ∅ [])).
  - repeat constructor.
  - reflexivity.
Defined.

Lemma saveBookmarks_refuses_invalid_witness :
  exists st',
    saveBookmarks print_json stamp (VArray [job1; VNull]) (mounted store_saved [])
    = (Returned tt, st') /\
    storage st' = storage (mounted store_saved []) /\
    faults st' = faults (mounted store_saved []) /\
    bookmarks st' = bookmarks (mounted store_saved []) /\
    error st' = Some "Failed to save job" /\
    trace st'
    = trace (mounted store_saved [])
      ++ [ConsoleError "Error saving bookmarks:"; AlertShown "Storage Error"].
Proof.
  apply (saveBookmarks_refuses_invalid
           print_json stamp (VArray [job1; VNull]) (mounted store_saved [])).
  right. exists [job1; VNull]. split; [ reflexivity | ].
  apply Exists_cons_tl. apply Exists_cons_hd. reflexivity.
Defined.

Lemma saveBookmarks_partial_write_witness :
  storage (snd (saveBookmarks print_json stamp (VArray [job5])
                  (mounted store_both [false; true]))) !! primary_key
  = Some (print_json (bookmarksData stamp (map essential_record [job5]))) /\
  storage (snd (saveBookmarks print_json stamp (VArray [job5])
                  (mounted store_both [false; true]))) !! backup_key
  = storage (mounted store_both [false; true]) !! backup_key /\
  error (snd (saveBookmarks print_json stamp (VArray [job5])
                (mounted store_both [false; true])))
  = Some "Failed to save job".
Proof.
  assert (Hitems : all_records [job5]) by (repeat constructor).
  destruct (saveBookmarks_partial_write
              print_json stamp [job5] (mounted store_both [false; true]) Hitems)
    as (_ & Hsecond & _).
  exact (Hsecond eq_refl eq_refl).
Defined.

Lemma essential_idempotent_witness :
  essential (essential_record job5) = inr (essential_record job5).
Proof.
  apply (essential_idempotent job5 (essential_record job5)). reflexivity.
Defined.

Lemma toggleBookmark_persists_cell_witness :
  exists (st' : app) (items' : list value),
    toggleBookmark print_json stamp "ios" job5 marked1 = (Returned tt, st') /\
    bookmarks st' = VArray items' /\
    storage st' !! primary_key
    = Some (print_json (bookmarksData stamp (map essential_record items'))) /\
    storage st' !! backup_key = storage st' !! primary_key.
Proof.
  apply (toggleBookmark_persists_cell print_json stamp "ios" job5 [job1] marked1).
  - reflexivity.
  - repeat constructor.
  - reflexivity.
  - reflexivity.
Defined.

Lemma toggleBookmark_on_non_array_witness :
  isBookmarked (bookmarks bundle_loaded) (id_of job5) = inl TypeError /\
  exists st',
    toggleBookmark print_json stamp "ios" job5 bundle_loaded = (Returned tt, st') /\
    render_error st' = true /\
    bookmarks st' = bookmarks bundle_loaded /\
    storage st' = storage bundle_loaded /\
    error st' = error bundle_loaded.
Proof.
  apply (toggleBookmark_on_non_array print_json stamp "ios" job5 bundle_loaded).
  reflexivity.
Defined.

Lemma clear_then_repair_restores_witness :
  exists (st1 st2 : app) (result : value),
    clearBookmarks "ios" PressClearAll marked1 = (Returned tt, st1) /\
    bookmarks st1 = VArray [] /\
    storage st1 !! primary_key = None /\
    verifyAndRepairBookmarks read_json st1 = (Returned result, st2) /\
    storage st2 !! primary_key = Some saved_text /\
    bookmarks st2 = VArray [] /\
    (forall restored, read_json saved_text = Some restored -> result = restored).
Proof.
  apply (clear_then_repair_restores read_json "ios" marked1 saved_text).
  - vm_compute. reflexivity.
  - discriminate.
  - reflexivity.
Defined.

Lemma clearBookmarks_rejected_witness :
  exists st',
    clearBookmarks "ios" PressClearAll (set_faults [true] marked1)
    = (Returned tt, st') /\
    storage st' = storage (set_faults [true] marked1) /\
    bookmarks st' = bookmarks (set_faults [true] marked1) /\
    error st' = Some "Failed to clear bookmarks".
Proof.
  apply (clearBookmarks_rejected "ios" (set_faults [true] marked1)).
  reflexivity.
Defined.

Lemma fetchJobs_unchecked_extraction_witness :
  jobs (snd (fetchJobs read_json_odd (Response true odd_page_text) 1 listing5))
  = VNumber 5 /\
  jobs (snd (fetchJobs read_json_odd (Response true odd_page_text) 2 listing5))
  = jobs listing5 /\
  render_error
    (snd (fetchJobs read_json_odd (Response true odd_page_text) 2 listing5))
  = true /\
  currentPage
    (snd (fetchJobs read_json_odd (Response true odd_page_text) 2 listing5))
  = 2%Z /\
  error (snd (fetchJobs read_json_odd (Response true odd_page_text) 2 listing5))
  = None.
Proof.
  assert (Hparse : read_json_odd odd_page_text = Some odd_page)
    by (vm_compute; reflexivity).
  destruct (fetchJobs_unchecked_extraction
              read_json_odd odd_page_text 1%Z listing5 odd_page Hparse)
    as (Hfirst & _).
  destruct (fetchJobs_unchecked_extraction
              read_json_odd odd_page_text 2%Z listing5 odd_page Hparse)
    as (_ & Hlater).
  split; [ exact (Hfirst eq_refl) | ].
  apply Hlater; [ discriminate | reflexivity ].
Defined.

Lemma jobsArray_of_object_witness :
  jobsArray_of (VObject [ ("results", VArray []); ("jobs", VArray [job1]) ])
  = inr (VArray []) /\
  exists extracted,
    jobsArray_of (VObject [ ("results", VNull); ("jobs", VArray [job1]) ])
    = inr (VArray extracted).
Proof.
  split.
  - apply (proj1 (jobsArray_of_object
                    [ ("results", VArray []); ("jobs", VArray [job1]) ])).
    reflexivity.
  - apply (proj2 (jobsArray_of_object
                    [ ("results", VNull); ("jobs", VArray [job1]) ]));
      reflexivity.
Defined.

Lemma loadMoreJobs_next_page_witness :
  loadMoreJobs read_json (Response true page_text) listing5
  = (Returned tt, listing5) /\
  (exists st',
      loadMoreJobs read_json (Response true page_text) idle5
      = (Returned tt, st') /\
      jobs st' = VArray ([job5] ++ [job1]) /\
      currentPage st' = (currentPage idle5 + 1)%Z /\
      loading st' = false) /\
  (exists st',
      loadMoreJobs read_json FetchRejected idle5 = (Returned tt, st') /\
      jobs st' = jobs idle5 /\
      currentPage st' = currentPage idle5 /\
      error st' = Some fetch_error).
Proof.
  destruct (loadMoreJobs_next_page read_json) as (Hbusy & Hnext & Hfail).
  split; [ apply Hbusy; reflexivity | ].
  split.
  - apply (Hnext page_text idle5 (VObject [ ("results", VArray [job1]) ])
             [job5] [job1]).
    + reflexivity.
    + discriminate.
    + vm_compute. reflexivity.
    + reflexivity.
    + reflexivity.
  - apply Hfail; reflexivity.
Defined.

Lemma getFieldTextValue_agrees_with_projection_witness :
  (getFieldTextValue job5 (top job5 "experience") "Experience"
   = inr (top (essential_record job5) "experience") /\
   getFieldTextValue job5 (top job5 "job_type") "Job_Type"
   = inr (top (essential_record job5) "job_type") /\
   getFieldTextValue job5 (top job5 "qualification") "Qualification"
   = inr (top (essential_record job5) "qualification")) /\
  (getFieldTextValue (essential_record job5)
     (top (essential_record job5) "experience") "Experience"
   = inr (top (essential_record job5) "experience") /\
   getFieldTextValue (essential_record job5)
     (top (essential_record job5) "job_type") "Job_Type"
   = inr (top (essential_record job5) "job_type") /\
   getFieldTextValue (essential_record job5)
     (top (essential_record job5) "qualification") "Qualification"
   = inr (top (essential_record job5) "qualification")).
Proof.
  apply (getFieldTextValue_agrees_with_projection job5 (essential_record job5)).
  reflexivity.
Defined.

Lemma formatSalaryRange_never_dash_witness :
  exists shown,
    formatSalaryRange job_range = inr shown /\ shown <> VString "-".
Proof. apply (formatSalaryRange_never_dash job_range). reflexivity. Defined.

Lemma getSalaryDisplay_needs_fee_details_witness :
  getSalaryDisplay print_json job_range = inr (VString "Not Mentioned") /\
  (truthy (top job_range "salary_min") || truthy (top job_range "salary_max")
   = true ->
   salary_row print_json job_range = inr (Some (VString "Not Mentioned"))).
Proof.
  apply (getSalaryDisplay_needs_fee_details print_json job_range);
    reflexivity.
Defined.

Lemma getSalaryDisplay_of_projected_witness :
  getSalaryDisplay print_json (essential_record job_range)
  = inr (VString "Not Mentioned").
Proof.
  apply (getSalaryDisplay_of_projected
           print_json job_range (essential_record job_range)); reflexivity.
Defined.

Lemma safeToString_drops_braces_and_quotes_witness :
  brace_or_quote "i"%char = false.
Proof.
  apply (safeToString_drops_braces_and_quotes print_json job1 "i"%char).
  - reflexivity.
  - vm_compute. left. reflexivity.
Defined.

Lemma fetch_error_on_the_screens_witness :
  BookmarksScreen (snd (fetchJobs read_json (Response false page_text) 2 idle5))
  = inr (ErrorView fetch_error) /\
  (forall first rest,
      jobs idle5 = VArray (first :: rest) ->
      JobsScreen (snd (fetchJobs read_json (Response false page_text) 2 idle5))
      = inr (ListView (jobs idle5))) /\
  (jobs idle5 = VArray [] ->
   JobsScreen (snd (fetchJobs read_json (Response false page_text) 2 idle5))
   = inr (ErrorView fetch_error)).
Proof.
  apply (fetch_error_on_the_screens read_json (Response false page_text) 2%Z idle5).
  reflexivity.
Defined.

Lemma BookmarksScreen_after_load_witness :
  BookmarksScreen (snd (loadBookmarks read_json 0 (mounted store_saved [])))
  = inr (ListView saved_bundle) /\
  BookmarksScreen (snd (loadBookmarks read_json 0 (mounted ∅ [])))
  = inr EmptyView.
Proof.
  split.
  - apply (proj2 (BookmarksScreen_after_load
                    read_json (mounted store_saved []) eq_refl eq_refl)
             saved_text stamp [job1]).
    + vm_compute. reflexivity.
    + discriminate.
    + vm_compute. reflexivity.
  - apply (proj1 (BookmarksScreen_after_load
                    read_json (mounted ∅ []) eq_refl eq_refl));
      reflexivity.
Defined.

Lemma jobs_screen_never_past_page_2_witness :
  page (fst (jobs_screen_run read_json
               [EndReached (Response true page_text);
                EndReached (Response true page_text)]
               (jobs_screen_mounted, idle5))) = 1%Z /\
  (currentPage (snd (jobs_screen_run read_json
                       [EndReached (Response true page_text);
                        EndReached (Response true page_text)]
                       (jobs_screen_mounted, idle5))) = 1%Z \/
   currentPage (snd (jobs_screen_run read_json
                       [EndReached (Response true page_text);
                        EndReached (Response true page_text)]
                       (jobs_screen_mounted, idle5))) = 2%Z).
Proof.
  apply (jobs_screen_never_past_page_2 read_json
           [EndReached (Response true page_text);
            EndReached (Response true page_text)]
           jobs_screen_mounted idle5).
  - reflexivity.
  - left. reflexivity.
Defined.

Lemma refreshing_is_never_cleared_witness :
  refreshing (fst (jobs_screen_run read_json
                     [Pulled (Response true page_text);
                      EndReached (Response true page_text);
                      NetInfo false]
                     (jobs_screen_mounted, idle5))) = true.
Proof.
  apply (refreshing_is_never_cleared read_json
           [Pulled (Response true page_text);
            EndReached (Response true page_text);
            NetInfo false]
           jobs_screen_mounted idle5).
  right. exists (Response true page_text). left. reflexivity.
Defined.

Lemma formatJobLocation_of_projected_witness :
  formatJobLocation (essential_record job_range)
  = inr "Location not specified" /\
  formatJobLocation job_range
  = inr (if truthy (top job_range "job_location_slug")
         then join ", " [top job_range "job_location_slug"]
         else "Location not specified").
Proof.
  apply (formatJobLocation_of_projected job_range (essential_record job_range)).
  reflexivity.
Defined.

Lemma getContentV3FieldValue_lookup_witness :
  exists shown,
    getContentV3FieldValue job_range (VString "Shift timing") = inr shown /\
    ((forall item,
         In item [ VObject [ ("field_key", VString "Shift timing");
                             ("field_value", VString "Day") ] ] ->
         top item "field_key" <> VString "Shift timing") ->
     shown = VNull) /\
    (shown = VNull \/
     exists item,
       In item [ VObject [ ("field_key", VString "Shift timing");
                           ("field_value", VString "Day") ] ] /\
       top item "field_key" = VString "Shift timing" /\
       shown = top item "field_value").
Proof.
  apply (getContentV3FieldValue_lookup job_range (VString "Shift timing")).
  - reflexivity.
  - reflexivity.
  - reflexivity.
  - repeat constructor.
  - reflexivity.
Defined.

(** Two load-mores from the mounted Jobs screen append the second page
    twice. *)
Example load_more_twice_appends_page_2_twice :
  jobs (snd (jobs_screen_run read_json
               [EndReached (Response true page_text);
                EndReached (Response true page_text)]
               (jobs_screen_mounted, idle5)))
  = VArray [job5; job1; job1].
Proof. vm_compute. reflexivity. Qed.

(** A job with a salary range and no [fee_details]: the details screen
    shows the range, the card does not. *)
Example range_on_details_not_on_card :
  formatSalaryRange job_range = inr (VString "₹10000 - ₹20000") /\
  getSalaryDisplay print_json job_range = inr (VString "Not Mentioned") /\
  getContentV3FieldValue job_range (VString "Shift timing")
  = inr (VString "Day").
Proof. vm_compute. repeat split. Qed.
